(** * Lecture hall checker: the timetable engine of [app.py]

    A shallow embedding of the functions of [app.py] that normalise the
    timetable and query it ([clean_hall_name], [load_timetable],
    [get_free_halls], [detect_conflicts], [chart_data], the statistics of
    [index]), together with the parts of Python and pandas they call.

    Conventions.
    - A Python [str] is a list of Unicode code points ([N]).
    - The case tables of the code points above 127 belong to the Unicode
      character database and are taken as a parameter ([pylib]); everything
      about ASCII is computed.
    - pandas is modelled with [object] columns: a missing cell ([NaN] or
      [None]) is [NA]. What pandas leaves open or changed between versions
      is a parameter too: whether [astype(str)] writes a missing cell as the
      text [nan] (before 3.0) or keeps it missing (from 3.0 on), and the
      order in which [value_counts] leaves values of equal count.
    - An exception raised by the Python code is a value of [exn]; limits of
      the interpreter (memory, recursion depth) are not modelled. *)

From Stdlib Require Import List NArith Bool Ascii String Lia Arith PeanoNat Sorted.
Import ListNotations.

(* ================================================================= *)
(** ** Python strings *)

Definition str := list N.

(** An ASCII literal as a Python string. *)
Definition lit (s : string) : str := map N_of_ascii (list_ascii_of_string s).

Definition str_eqb (a b : str) : bool :=
  if list_eq_dec N.eq_dec a b then true else false.

(** [Py_UNICODE_ISSPACE]: what [str.strip], [str.isspace] and the [\s] of
    [re] on a [str] pattern all use. *)
Definition isspace (c : N) : bool :=
  ((9 <=? c) && (c <=? 13) || (28 <=? c) && (c <=? 32)
   || (c =? 133) || (c =? 160) || (c =? 5760)
   || (8192 <=? c) && (c <=? 8202)
   || (c =? 8232) || (c =? 8233) || (c =? 8239) || (c =? 8287)
   || (c =? 12288))%N.

Abbreviation SP := 32%N (only parsing).

Definition is_ascii (c : N) : bool := (c <? 128)%N.
Definition ascii_isupper (c : N) : bool := ((65 <=? c) && (c <=? 90))%N.
Definition ascii_islower (c : N) : bool := ((97 <=? c) && (c <=? 122))%N.
Definition ascii_toupper (c : N) : N :=
  if ascii_islower c then (c - 32)%N else c.
Definition ascii_tolower (c : N) : N :=
  if ascii_isupper c then (c + 32)%N else c.

(** The parts of the libraries that are taken as given: the Unicode tables
    for the code points above 127, what [re] does with a pattern that is
    outside the fragment modelled below ([None]: [re.error]), and of pandas
    - [nan_as_text]: [Series.astype(str)] writes a missing cell as the text
      [nan] (pandas before 3.0); otherwise the cell stays missing (3.0 on);
    - [tie_before entries x y]: sorting [entries] by count, [value_counts]
      puts [x] before [y] when they count the same. pandas sorts with an
      unstable sort and promises no order here. *)
Record pylib : Type := {
  ext_upper : N -> str;            (* _PyUnicode_ToUpperFull *)
  ext_lower : N -> str;            (* _PyUnicode_ToLowerFull *)
  ext_title : N -> str;            (* _PyUnicode_ToTitleFull *)
  ext_cased : N -> bool;           (* _PyUnicode_IsCased *)
  case_ignorable : N -> bool;      (* _PyUnicode_IsCaseIgnorable, all code
                                      points; read around U+03A3 only *)
  ext_ieq : N -> N -> bool;        (* re.IGNORECASE: pattern char, text char *)
  ext_re : str -> option (str -> bool); (* re.compile(p, re.I).search *)
  nan_as_text : bool;
  tie_before : list (str * nat) -> str * nat -> str * nat -> bool
}.

(** Tables that leave every code point above 127 alone, a [re] that
    rejects what is not modelled, a pandas before 3.0 whose sort keeps values
    of equal count in the order of their first appearance. *)
Definition ascii_only : pylib :=
  {| ext_upper := fun c => [c];
     ext_lower := fun c => [c];
     ext_title := fun c => [c];
     ext_cased := fun _ => false;
     case_ignorable := fun _ => false;
     ext_ieq := N.eqb;
     ext_re := fun _ => None;
     nan_as_text := true;
     tie_before := fun _ _ _ => true |}.

(** The same with a pandas from 3.0 on. *)
Definition pandas3 : pylib :=
  {| ext_upper := ext_upper ascii_only;
     ext_lower := ext_lower ascii_only;
     ext_title := ext_title ascii_only;
     ext_cased := ext_cased ascii_only;
     case_ignorable := case_ignorable ascii_only;
     ext_ieq := ext_ieq ascii_only;
     ext_re := ext_re ascii_only;
     nan_as_text := false;
     tie_before := tie_before ascii_only |}.

Section Strings.
Variable U : pylib.

Definition to_upper_full (c : N) : str :=
  if is_ascii c then [ascii_toupper c] else ext_upper U c.
Definition to_lower_full (c : N) : str :=
  if is_ascii c then [ascii_tolower c] else ext_lower U c.
Definition to_title_full (c : N) : str :=
  if is_ascii c then [ascii_toupper c] else ext_title U c.
Definition is_cased (c : N) : bool :=
  if is_ascii c then ascii_isupper c || ascii_islower c else ext_cased U c.
Definition is_case_ignorable (c : N) : bool := case_ignorable U c.

(** [str.upper()] *)
Definition upper (s : str) : str := flat_map to_upper_full s.

(** The first character that is not case-ignorable, if any. *)
Fixpoint skip_ignorable (s : str) : option N :=
  match s with
  | [] => None
  | c :: s' => if is_case_ignorable c then skip_ignorable s' else Some c
  end.

(** [handle_capital_sigma]: [before] is the text before the sigma, nearest
    character first. *)
Definition final_sigma (before after : str) : bool :=
  match skip_ignorable before with
  | Some c =>
      is_cased c &&
      match skip_ignorable after with
      | None => true
      | Some d => negb (is_cased d)
      end
  | None => false
  end.

(** [lower_ucs4]: lower case of one character in its context. *)
Definition lower_at (before : str) (c : N) (after : str) : str :=
  if (c =? 931)%N
  then [if final_sigma before after then 962%N else 963%N]
  else to_lower_full c.

(** [do_title], the loop of [str.title()]. *)
Fixpoint title_from (before : str) (previous_is_cased : bool) (s : str) : str :=
  match s with
  | [] => []
  | c :: s' =>
      (if previous_is_cased then lower_at before c s' else to_title_full c)
      ++ title_from (c :: before) (is_cased c) s'
  end.

Definition title (s : str) : str := title_from [] false s.

End Strings.

(** [str.strip()] *)
Fixpoint lstrip (s : str) : str :=
  match s with
  | [] => []
  | c :: s' => if isspace c then lstrip s' else s
  end.
Definition rstrip (s : str) : str := rev (lstrip (rev s)).
Definition strip (s : str) : str := rstrip (lstrip s).

(** [re.sub(r"\s+", " ", s)]: every maximal run of white space becomes one
    space. [in_run] tells that the previous character was white space. *)
Fixpoint sub_ws_from (in_run : bool) (s : str) : str :=
  match s with
  | [] => []
  | c :: s' =>
      if isspace c
      then if in_run then sub_ws_from true s' else SP :: sub_ws_from true s'
      else c :: sub_ws_from false s'
  end.
Definition sub_ws (s : str) : str := sub_ws_from false s.

Fixpoint is_prefix (p s : str) : bool :=
  match p, s with
  | [], _ => true
  | a :: p', c :: s' => (a =? c)%N && is_prefix p' s'
  | _ :: _, [] => false
  end.

(** [str.replace(old, new)]: the occurrences of [old] are found from left to
    right and do not overlap. [skip] counts the characters of the occurrence
    being replaced that are still to pass. *)
Fixpoint replace_from (old new : str) (skip : nat) (s : str) : str :=
  match s with
  | [] => []
  | c :: s' =>
      match skip with
      | S k => replace_from old new k s'
      | O =>
          if is_prefix old s
          then new ++ replace_from old new (List.length old - 1) s'
          else c :: replace_from old new 0 s'
      end
  end.

Definition replace (old new s : str) : str :=
  match old with
  | [] => new ++ flat_map (fun c => c :: new) s
  | _ :: _ => replace_from old new 0 s
  end.

(** [old in s] *)
Fixpoint contains (old s : str) : bool :=
  is_prefix old s ||
  match s with
  | [] => false
  | _ :: s' => contains old s'
  end.

(* ================================================================= *)
(** ** Cells *)

(** A cell of an [object] column: missing, or a value, kept as its [str()]. *)
Inductive cell : Type :=
| NA
| Str (s : str).

Definition isna (c : cell) : bool :=
  match c with NA => true | Str _ => false end.

Section Normalizer.
Variable U : pylib.

(** [clean_hall_name], lines 36-43. *)
Definition clean_hall_name (name : cell) : cell :=
  match name with
  | NA => NA
  | Str s =>
      let name := upper U s in
      let name := sub_ws name in
      let name := replace (lit " )") (lit ")")
                    (replace (lit "( ") (lit "(") name) in
      let name := replace (lit "E B") (lit "EB")
                    (replace (lit "A B") (lit "AB") name) in
      Str (strip name)
  end.

End Normalizer.

(* ================================================================= *)
(** ** Regular expressions: the fragment of [re] that is modelled

    [Series.str.contains(pat, case=False)] has [regex=True] by default: it
    compiles [pat] with [re.IGNORECASE] and keeps the rows where
    [search] finds a match. The fragment covers literal characters, [.],
    groups and [|]; a pattern that uses anything else goes to [ext_re]. *)

Inductive regex : Type :=
| REmpty
| RLit (c : N)
| RAny
| RSeq (r1 r2 : regex)
| RAlt (r1 r2 : regex)
| RGroup (r : regex).

Inductive parsed : Type :=
| Parsed (r : regex)
| BadPattern        (* re.error: a parenthesis without its partner *)
| Outside.          (* not in the fragment *)

(** One open subpattern: the branches closed by a [|] so far, and the
    branch being read. *)
Record level : Type := {
  lv_done : option regex;
  lv_cur : regex
}.

Definition lv_start : level := {| lv_done := None; lv_cur := REmpty |}.
Definition lv_push (l : level) (r : regex) : level :=
  {| lv_done := lv_done l; lv_cur := RSeq (lv_cur l) r |}.
Definition lv_close (l : level) : regex :=
  match lv_done l with
  | None => lv_cur l
  | Some d => RAlt d (lv_cur l)
  end.
Definition lv_bar (l : level) : level :=
  {| lv_done := Some (lv_close l); lv_cur := REmpty |}.

(** The characters [re] gives a meaning to: . ^ $ * + ? { } [ ] \ | ( ) *)
Definition re_special (c : N) : bool :=
  existsb (N.eqb c) (lit ".^$*+?{}[]\|()").

Fixpoint re_parse (stack : list level) (top : level) (p : str) : parsed :=
  match p with
  | [] =>
      match stack with
      | [] => Parsed (lv_close top)
      | _ :: _ => BadPattern          (* missing ), unterminated subpattern *)
      end
  | c :: p' =>
      if (c =? 40)%N then                       (* ( *)
        match p' with
        | 63%N :: _ => Outside                  (* (?...) *)
        | _ => re_parse (top :: stack) lv_start p'
        end
      else if (c =? 41)%N then                  (* ) *)
        match stack with
        | [] => BadPattern                      (* unbalanced parenthesis *)
        | parent :: stack' =>
            re_parse stack' (lv_push parent (RGroup (lv_close top))) p'
        end
      else if (c =? 124)%N then re_parse stack (lv_bar top) p'     (* | *)
      else if (c =? 46)%N then re_parse stack (lv_push top RAny) p' (* . *)
      else if re_special c then Outside
      else re_parse stack (lv_push top (RLit c)) p'
  end.

Section Regex.
Variable U : pylib.

(** Two characters that [re.IGNORECASE] takes for the same. *)
Definition ieq (p c : N) : bool :=
  if is_ascii p && is_ascii c
  then (ascii_tolower p =? ascii_tolower c)%N
  else ext_ieq U p c.

(** The ways [r] matches at the start of [s]: what is left of [s] after
    each. *)
Fixpoint re_match (r : regex) (s : str) : list str :=
  match r with
  | REmpty => [s]
  | RLit p =>
      match s with
      | c :: s' => if ieq p c then [s'] else []
      | [] => []
      end
  | RAny =>
      match s with
      | c :: s' => if (c =? 10)%N then [] else [s']
      | [] => []
      end
  | RSeq r1 r2 => flat_map (re_match r2) (re_match r1 s)
  | RAlt r1 r2 => re_match r1 s ++ re_match r2 s
  | RGroup r1 => re_match r1 s
  end.

Definition matches_here (r : regex) (s : str) : bool :=
  match re_match r s with [] => false | _ :: _ => true end.

(** [pattern.search(s) is not None] *)
Fixpoint re_search (r : regex) (s : str) : bool :=
  matches_here r s ||
  match s with
  | [] => false
  | _ :: s' => re_search r s'
  end.

(** [re.compile(pat, re.IGNORECASE).search], or [None] for [re.error]. *)
Definition re_compile (pat : str) : option (str -> bool) :=
  match re_parse [] lv_start pat with
  | Parsed r => Some (re_search r)
  | BadPattern => None
  | Outside => ext_re U pat
  end.

(** [q] is in [s] when case is ignored: the reading of the specification. *)
Fixpoint iprefix (q s : str) : bool :=
  match q, s with
  | [], _ => true
  | p :: q', c :: s' => ieq p c && iprefix q' s'
  | _ :: _, [] => false
  end.

Fixpoint icontains (q s : str) : bool :=
  iprefix q s ||
  match s with
  | [] => false
  | _ :: s' => icontains q s'
  end.

End Regex.

(* ================================================================= *)
(** ** Orders, [sorted] and [set] *)

Fixpoint str_compare (a b : str) : comparison :=
  match a, b with
  | [], [] => Eq
  | [], _ :: _ => Lt
  | _ :: _, [] => Gt
  | x :: a', y :: b' =>
      match (x ?= y)%N with
      | Eq => str_compare a' b'
      | o => o
      end
  end.


Section Sorted.
Variable A : Type.
Variable cmp : A -> A -> comparison.

(** Insertion in an ascending list without duplicates. *)
Fixpoint insert_uniq (x : A) (l : list A) : list A :=
  match l with
  | [] => [x]
  | y :: l' =>
      match cmp x y with
      | Lt => x :: l
      | Eq => l
      | Gt => y :: insert_uniq x l'
      end
  end.

(** [sorted(set(l))] *)
Definition sorted_set (l : list A) : list A := fold_right insert_uniq [] l.

End Sorted.

Arguments insert_uniq {A} cmp x l.
Arguments sorted_set {A} cmp l.

(* ================================================================= *)
(** ** Data frames *)

(** Exceptions. *)
Inductive exn : Type :=
| KeyError (label : str)
| ValueError
| ReError
| CsvError      (* what [pd.read_csv] raises: EmptyDataError, ParserError, ... *)
| PlotError.    (* what [Series.plot] raises on a series without values *)

Inductive result (A : Type) : Type :=
| Ok (a : A)
| Raise (e : exn).
Arguments Ok {A} a.
Arguments Raise {A} e.

Definition bind {A B : Type} (m : result A) (f : A -> result B) : result B :=
  match m with
  | Ok a => f a
  | Raise e => Raise e
  end.

Notation "x <- m ;; k" := (bind m (fun x => k))
  (at level 61, m at next level, right associativity).

(** The recognised columns of one line of the timetable. *)
Record row : Type := {
  Day : cell;
  Time : cell;
  Lecture_Hall : cell;
  Course_Code : cell
}.

(** A [DataFrame]. [has_X] is ["X" in df.columns], after the renaming of line
    34; the field of a column that is absent is never read. The other
    columns of the file are passed through and left out. A frame read from a
    file with lines has columns, so [df.empty] is "no line". A header in
    which line 34 gives two columns the same name is outside the model. *)
Record frame : Type := {
  has_Day : bool;
  has_Time : bool;
  has_Lecture_Hall : bool;
  has_Course_Code : bool;
  rows : list row
}.

(** [pd.DataFrame()] *)
Definition DataFrame : frame :=
  {| has_Day := false; has_Time := false; has_Lecture_Hall := false;
     has_Course_Code := false; rows := [] |}.

Definition empty (df : frame) : bool :=
  match rows df with [] => true | _ :: _ => false end.

(** Reading a column that is absent raises [KeyError]. *)
Definition need (present : bool) (name : string) : result unit :=
  if present then Ok tt else Raise (KeyError (lit name)).

(** [Series.dropna()] of an [object] column. *)
Fixpoint dropna (col : list cell) : list str :=
  match col with
  | [] => []
  | NA :: col' => dropna col'
  | Str s :: col' => s :: dropna col'
  end.

(** [series == value] on one cell. *)
Definition cell_is (c : cell) (v : str) : bool :=
  match c with
  | NA => false
  | Str s => str_eqb s v
  end.

Definition mem (x : str) (l : list str) : bool := existsb (str_eqb x) l.

(** [Series.unique()]: the distinct values, in the order they first appear. *)
Fixpoint unique (l : list str) : list str :=
  match l with
  | [] => []
  | x :: l' => x :: filter (fun y => negb (str_eqb x y)) (unique l')
  end.

Definition count (x : str) (l : list str) : nat :=
  List.length (filter (str_eqb x) l).

(** Where a (label, count) pair goes in a list in descending order of count:
    before the first pair that counts less, or that counts the same and that
    it is to come [before]. *)
Fixpoint insert_desc (before : str * nat -> str * nat -> bool)
    (x : str * nat) (l : list (str * nat)) : list (str * nat) :=
  match l with
  | [] => [x]
  | y :: l' =>
      if (snd y <? snd x) || ((snd y =? snd x) && before x y)
      then x :: l
      else y :: insert_desc before x l'
  end.

(** [Series.value_counts()]: missing values dropped, one entry per distinct
    value, sorted by descending count; the order of the entries of equal
    count is the library's. *)
Definition value_counts (U : pylib) (col : list cell) : list (str * nat) :=
  let xs := dropna col in
  let entries := map (fun h => (h, count h xs)) (unique xs) in
  fold_right (insert_desc (tie_before U entries)) [] entries.

(** [Series.idxmin()]: the label of the first minimum. *)
Fixpoint idxmin (l : list (str * nat)) : option (str * nat) :=
  match l with
  | [] => None
  | x :: l' =>
      match idxmin l' with
      | None => Some x
      | Some y => if snd y <? snd x then Some y else Some x
      end
  end.

(** [Series.mode()]: the most frequent values, sorted. *)
Definition mode (col : list cell) : list str :=
  let xs := dropna col in
  let top := fold_right Nat.max 0 (map (fun h => count h xs) xs) in
  sorted_set str_compare (filter (fun h => count h xs =? top) xs).

(** [Series.nunique()] *)
Definition nunique (col : list cell) : nat := List.length (unique (dropna col)).

(** *** Grouping *)

Definition key : Type := (str * str * str)%type.

Definition key_compare (a b : key) : comparison :=
  let '(d1, t1, h1) := a in
  let '(d2, t2, h2) := b in
  match str_compare d1 d2 with
  | Eq =>
      match str_compare t1 t2 with
      | Eq => str_compare h1 h2
      | o => o
      end
  | o => o
  end.

Definition key_eqb (a b : key) : bool :=
  let '(d1, t1, h1) := a in
  let '(d2, t2, h2) := b in
  str_eqb d1 d2 && str_eqb t1 t2 && str_eqb h1 h2.

(** The ["Day", "Time", "Lecture Hall"] key of a line. [groupby] has
    [dropna=True] by default: a line with a missing key belongs to no
    group. *)
Definition row_key (r : row) : option key :=
  match Day r, Time r, Lecture_Hall r with
  | Str d, Str t, Str h => Some (d, t, h)
  | _, _, _ => None
  end.

Definition has_key (k : key) (r : row) : bool :=
  match row_key r with
  | Some k' => key_eqb k k'
  | None => false
  end.

Fixpoint keys_of (rs : list row) : list key :=
  match rs with
  | [] => []
  | r :: rs' =>
      match row_key r with
      | Some k => k :: keys_of rs'
      | None => keys_of rs'
      end
  end.

(** The groups of [groupby(["Day", "Time", "Lecture Hall"])], in the order
    the result lists them ([sort=True]). *)
Definition group_keys (rs : list row) : list key :=
  sorted_set key_compare (keys_of rs).

(** The lines of one group, in the order of the frame. *)
Definition group (k : key) (rs : list row) : list row := filter (has_key k) rs.

(** [.size().reset_index(name="Count")] *)
Definition group_sizes (rs : list row) : list (key * nat) :=
  map (fun k => (k, List.length (group k rs))) (group_keys rs).

(** [pd.merge(df, conflicts[keys], on=keys, how="inner")] where the keys of
    [conflicts] are distinct: the lines of [df] whose key is one of them, in
    the order of [df]. (Only the order of the lines of one key matters
    below, and every pandas keeps that one.) *)
Definition merge (rs : list row) (ks : list key) : list row :=
  filter (fun r => existsb (fun k => has_key k r) ks) rs.

(* ================================================================= *)
(** ** The functions of [app.py] *)

(** One dictionary of the list [detect_conflicts] returns. *)
Record conflict : Type := {
  c_Day : cell;
  c_Time : cell;
  c_Lecture_Hall : cell;
  c_Course_Code : list cell
}.

Record stats : Type := {
  total_courses : nat;
  total_halls : nat;
  most_used : str;
  least_used : str
}.

Section App.
Variable U : pylib.

(** [Series.astype(str)] on a cell. *)
Definition astype_str (c : cell) : cell :=
  match c with
  | NA => if nan_as_text U then Str (lit "nan") else NA
  | Str s => Str s
  end.

(** A method of [Series.str] on a cell: a missing cell stays missing. *)
Definition str_method (f : str -> str) (c : cell) : cell :=
  match c with
  | NA => NA
  | Str s => Str (f s)
  end.

(** Lines 45-52 on one line of the file. *)
Definition clean_row (df : frame) (r : row) : row :=
  {| Day := if has_Day df
            then str_method (title U) (str_method strip (astype_str (Day r)))
            else Day r;
     Time := if has_Time df
             then str_method strip (astype_str (Time r))
             else Time r;
     Lecture_Hall := if has_Lecture_Hall df
                     then clean_hall_name U (Lecture_Hall r)
                     else Lecture_Hall r;
     Course_Code := Course_Code r |}.

(** [load_timetable], lines 27-54, from what [pd.read_csv] returns at line
    33: [csv] is that frame, with the columns already renamed by line 34, or
    [None] when there is no file. The [pd.read_csv] that raises is in
    [load_timetable_from] below. *)
Definition load_timetable (csv : option frame) : frame :=
  match csv with
  | None => DataFrame
  | Some df =>
      {| has_Day := has_Day df;
         has_Time := has_Time df;
         has_Lecture_Hall := has_Lecture_Hall df;
         has_Course_Code := has_Course_Code df;
         rows := map (clean_row df) (rows df) |}
  end.

(** [Series.str.contains(pat, case=False, na=False)] on one cell, once the
    pattern is compiled. *)
Definition str_contains (pat : str) : result (cell -> bool) :=
  match re_compile U pat with
  | Some search =>
      Ok (fun c => match c with NA => false | Str s => search s end)
  | None => Raise ReError
  end.

Definition all_halls (df : frame) : list str :=
  sorted_set str_compare (dropna (map Lecture_Hall (rows df))).

(** [get_free_halls], lines 57-69: (free_halls, occupied_halls). *)
Definition get_free_halls (df : frame) (day time : str)
  : result (list str * list str) :=
  if empty df then Ok ([], []) else
  let day := title U (strip day) in
  let time := strip time in
  _ <- need (has_Day df) "Day" ;;
  _ <- need (has_Time df) "Time" ;;
  found <- str_contains time ;;
  let occupied :=
    filter (fun r => cell_is (Day r) day && found (Time r)) (rows df) in
  _ <- need (has_Lecture_Hall df) "Lecture Hall" ;;
  let occupied_halls :=
    sorted_set str_compare (dropna (map Lecture_Hall occupied)) in
  let all_halls := all_halls df in
  let free_halls :=
    sorted_set str_compare
      (filter (fun h => negb (mem h occupied_halls)) all_halls) in
  Ok (free_halls, occupied_halls).

Definition conflict_of (details : list row) (k : key) : conflict :=
  let '(d, t, h) := k in
  {| c_Day := Str d; c_Time := Str t; c_Lecture_Hall := Str h;
     c_Course_Code := map Course_Code (group k details) |}.

(** [detect_conflicts], lines 72-90. *)
Definition detect_conflicts (df : frame) : result (list conflict) :=
  if empty df then Ok [] else
  _ <- need (has_Day df) "Day" ;;
  _ <- need (has_Time df) "Time" ;;
  _ <- need (has_Lecture_Hall df) "Lecture Hall" ;;
  let conflicts := filter (fun kc => 1 <? snd kc) (group_sizes (rows df)) in
  match conflicts with
  | [] => Ok []
  | _ :: _ =>
      let details := merge (rows df) (map fst conflicts) in
      _ <- need (has_Course_Code df) "Course Code" ;;
      Ok (map (conflict_of details) (group_keys details))
  end.

(** The series [generate_chart] plots (lines 95-106): [None] when it returns
    at line 96 without a chart. A bar plot of a series without values
    raises. *)
Definition generate_chart (df : frame) : result (option (list (str * nat))) :=
  if empty df then Ok None else
  _ <- need (has_Lecture_Hall df) "Lecture Hall" ;;
  let hall_counts := value_counts U (map Lecture_Hall (rows df)) in
  match hall_counts with
  | [] => Raise PlotError
  | _ :: _ => Ok (Some hall_counts)
  end.

(** [chart_data], lines 196-205: (labels, values). *)
Definition chart_data (csv : option frame) : list str * list nat :=
  let df := load_timetable csv in
  if empty df || negb (has_Lecture_Hall df) then ([], []) else
  let hall_counts := value_counts U (map Lecture_Hall (rows df)) in
  (map fst hall_counts, map snd hall_counts).

(** The drop-down lists of [index], lines 128-129. *)
Definition day_options (df : frame) : list str :=
  if has_Day df
  then sorted_set str_compare (unique (dropna (map Day (rows df))))
  else [].

Definition time_options (df : frame) : list str :=
  if has_Time df
  then sorted_set str_compare (unique (dropna (map Time (rows df))))
  else [].

(** The statistics of [index], lines 133-138. [mode()[0]] and [idxmin()]
    raise on a series without values. *)
Definition index_stats (df : frame) : result stats :=
  let halls := map Lecture_Hall (rows df) in
  let total_courses := List.length (rows df) in
  let total_halls := if has_Lecture_Hall df then nunique halls else 0 in
  most_used <-
    (if 0 <? total_halls
     then match mode halls with
          | m :: _ => Ok m
          | [] => Raise (KeyError (lit "0"))
          end
     else Ok (lit "N/A")) ;;
  least_used <-
    (if 0 <? total_halls
     then match idxmin (value_counts U halls) with
          | Some x => Ok (fst x)
          | None => Raise ValueError
          end
     else Ok (lit "N/A")) ;;
  Ok {| total_courses := total_courses;
        total_halls := total_halls;
        most_used := most_used;
        least_used := least_used |}.

End App.

(* ================================================================= *)
(** ** Reading the results *)

Definition all_columns (df : frame) : Prop :=
  has_Day df = true /\ has_Time df = true /\
  has_Lecture_Hall df = true /\ has_Course_Code df = true.

(** The groups with more than one line. *)
Definition crowded (rs : list row) (k : key) : bool :=
  1 <? List.length (group k rs).

(** The dictionary [c] is the one of the group [k]. *)
Definition conflict_has_key (k : key) (c : conflict) : bool :=
  let '(d, t, h) := k in
  cell_is (c_Day c) d && cell_is (c_Time c) t && cell_is (c_Lecture_Hall c) h.

(** The courses the report lists for the group [k]; none when the report has
    no entry for it. *)
Definition courses_reported (cs : list conflict) (k : key) : list cell :=
  match find (conflict_has_key k) cs with
  | Some c => c_Course_Code c
  | None => []
  end.

(** The dataset without the lines that have no hall. *)
Definition without_null_halls (df : frame) : frame :=
  {| has_Day := has_Day df; has_Time := has_Time df;
     has_Lecture_Hall := has_Lecture_Hall df;
     has_Course_Code := has_Course_Code df;
     rows := filter (fun r => negb (isna (Lecture_Hall r))) (rows df) |}.

(** The dataset with one more line at the end. *)
Definition append_row (df : frame) (r : row) : frame :=
  {| has_Day := has_Day df; has_Time := has_Time df;
     has_Lecture_Hall := has_Lecture_Hall df;
     has_Course_Code := has_Course_Code df;
     rows := rows df ++ [r] |}.

(** The halls [chart_data] counts. *)
Definition usage_halls (df : frame) : list str :=
  if has_Lecture_Hall df then dropna (map Lecture_Hall (rows df)) else [].



Definition total_halls_of (r : result stats) : option nat :=
  match r with
  | Ok s => Some (total_halls s)
  | Raise _ => None
  end.

(** A query without any of the characters [re] gives a meaning to. *)
Definition literal (q : str) : bool := forallb (fun c => negb (re_special c)) q.

(** The pattern read from the characters [q] after [r]. *)
Definition lits (r : regex) (q : str) : regex :=
  fold_left (fun r c => RSeq r (RLit c)) q r.

(** What is left of [s] after [q], case ignored. *)
Definition after_iprefix (U : pylib) (q s : str) : list str :=
  if iprefix U q s then [skipn (List.length q) s] else [].

(** Ascending for [cmp], without duplicates. *)
Definition ascending {A : Type} (cmp : A -> A -> comparison) (l : list A) : Prop :=
  StronglySorted (fun a b => cmp a b = Lt) l.

(** What an order has to satisfy for [sorted_set] to sort. *)
Record strict_order {A : Type} (cmp : A -> A -> comparison) : Prop := {
  cmp_eq : forall x y, cmp x y = Eq <-> x = y;
  cmp_trans : forall x y z, cmp x y = Lt -> cmp y z = Lt -> cmp x z = Lt;
  cmp_flip : forall x y, cmp x y = Gt -> cmp y x = Lt
}.

(* ================================================================= *)
(** ** What the hall-name pipeline establishes

    After [sub_ws] every white space is a single space between two other
    characters or at an end. Each [replace] of [clean_hall_name] then
    removes the spaces whose neighbours fit its pattern; [del] is that
    reading, [okctx] says that no space is left to remove. *)

Definition is_char (a : N) (o : option N) : bool :=
  match o with
  | Some c => (c =? a)%N
  | None => false
  end.

(** A test on the characters before and after a space. *)
Definition ctx_test : Type := option N -> option N -> bool.

Definition after_char (a : N) : ctx_test := fun p _ => is_char a p.
Definition before_char (b : N) : ctx_test := fun _ n => is_char b n.
Definition between (a b : N) : ctx_test := fun p n => is_char a p && is_char b n.

Fixpoint del (m : ctx_test) (prev : option N) (s : str) : str :=
  match s with
  | [] => []
  | c :: s' =>
      if (c =? SP)%N && m prev (hd_error s')
      then del m (Some c) s'
      else c :: del m (Some c) s'
  end.

Fixpoint okctx (m : ctx_test) (prev : option N) (s : str) : bool :=
  match s with
  | [] => true
  | c :: s' =>
      negb ((c =? SP)%N && m prev (hd_error s')) && okctx m (Some c) s'
  end.

(** Every white space is a space, and no two are adjacent; [prev_sp] tells that
    the character before [s] is a space. *)
Fixpoint spaced (prev_sp : bool) (s : str) : bool :=
  match s with
  | [] => true
  | c :: s' =>
      if isspace c
      then (c =? SP)%N && negb prev_sp && spaced true s'
      else spaced false s'
  end.

(** [rstrip] by recursion on the text. *)
Fixpoint rstrip_rec (s : str) : str :=
  match s with
  | [] => []
  | c :: s' =>
      match rstrip_rec s' with
      | [] => if isspace c then [] else [c]
      | r => c :: r
      end
  end.

(** The tables keep what [str.upper] returns: upper case of upper case is
    itself. *)
Definition upper_stable (U : pylib) : Prop :=
  forall c d, In d (to_upper_full U c) -> to_upper_full U d = [d].

(** A hall name on which [clean_hall_name] has nothing left to do. *)
Definition canonical (U : pylib) (t : str) : Prop :=
  Forall (fun c => to_upper_full U c = [c]) t /\
  spaced false t = true /\
  okctx (after_char 40) None t = true /\
  okctx (before_char 41) None t = true /\
  okctx (between 65 66) None t = true /\
  okctx (between 69 66) None t = true /\
  strip t = t.

(* ================================================================= *)
(** ** Timetables used as examples *)

Definition text (s : string) : cell := Str (lit s).

Definition line (d t h c : cell) : row :=
  {| Day := d; Time := t; Lecture_Hall := h; Course_Code := c |}.

(** A file with the four recognised columns. *)
Definition timetable (rs : list row) : frame :=
  {| has_Day := true; has_Time := true; has_Lecture_Hall := true;
     has_Course_Code := true; rows := rs |}.

(** A file whose header has no "Lecture Hall". *)
Definition csv_without_hall : frame :=
  {| has_Day := true; has_Time := true; has_Lecture_Hall := false;
     has_Course_Code := true;
     rows := [line (text "Monday") (text "09:00-10:00") NA (text "CS101")] |}.

Definition csv_lab : frame :=
  timetable
    [line (text "monday") (text "09:00-10:00 (Lab)") (text "lt 1") (text "CS101");
     line (text "Monday") (text "10:00-11:00") (text "LT 2") (text "CS102")].

(** Two lines without a hall at the same day and time. *)
Definition csv_null_halls : frame :=
  timetable
    [line (text "Monday") (text "09:00-10:00") NA (text "CS101");
     line (text "Monday") (text "09:00-10:00") NA (text "CS102")].

(** One line without a hall. *)
Definition csv_one_null_hall : frame :=
  timetable [line (text "Monday") (text "09:00-10:00") NA (text "CS101")].

Definition csv_one_line : frame :=
  timetable [line (text "Monday") (text "09:00-10:00") (text "LT1") (text "CS101")].

(** The same course twice in the same hall at the same time. *)
Definition csv_same_course : frame :=
  timetable
    [line (text "Monday") (text "09:00-10:00") (text "A B") (text "CS101");
     line (text "Monday") (text "09:00-10:00") (text "AB") (text "CS101")].

(** Hall B, then hall A, one line each. *)
Definition csv_two_halls : frame :=
  timetable
    [line (text "Monday") (text "09:00-10:00") (text "B") (text "CS101");
     line (text "Monday") (text "10:00-11:00") (text "A") (text "CS102")].

(** A line without day and time. *)
Definition csv_missing_cells : frame :=
  timetable
    [line NA NA (text "LT1") (text "CS101");
     line (text "Monday") (text "09:00-10:00") (text "LT2") (text "CS102")].

From Stdlib Require Import Permutation.

(* ================================================================= *)
(** ** The rest of [app.py]: uploads and the index page *)

(** [ALLOWED_EXTENSIONS], line 16. *)
Definition ALLOWED_EXTENSIONS : list str := [lit "csv"].

(** The text before and the text after the last dot of [s], if it has one. *)
Fixpoint last_dot (s : str) : option (str * str) :=
  match s with
  | [] => None
  | c :: s' =>
      match last_dot s' with
      | Some (a, b) => Some (c :: a, b)
      | None => if (c =? 46)%N then Some ([], s') else None
      end
  end.

(** [s.rsplit(".", 1)] *)
Definition rsplit_dot (s : str) : list str :=
  match last_dot s with
  | Some (a, b) => [a; b]
  | None => [s]
  end.

Section Uploads.
Variable U : pylib.

(** [do_lower], the loop of [str.lower()]; [before] is the text already
    passed, nearest character first. *)
Fixpoint lower_from (before : str) (s : str) : str :=
  match s with
  | [] => []
  | c :: s' => lower_at U before c s' ++ lower_from (c :: before) s'
  end.

Definition lower (s : str) : str := lower_from [] s.

(** [allowed_file], lines 22-24. The [and] does not evaluate [[1]] on a name
    without a dot, so the [IndexError] of that case never happens. *)
Definition allowed_file (filename : str) : bool :=
  contains (lit ".") filename &&
  match nth_error (rsplit_dot filename) 1 with
  | Some ext => existsb (str_eqb (lower ext)) ALLOWED_EXTENSIONS
  | None => false
  end.

End Uploads.

(** A file, as [pd.read_csv] takes it: one it cannot read (no byte in it,
    lines of different lengths, bytes that are no text), or one it reads,
    with the frame it returns. The frames are those of [frame]: a file whose
    header names a column twice after line 34 is not among them. *)
Inductive csv_file : Type :=
| Unreadable
| Readable (df : frame).

(** [pd.read_csv], line 33. *)
Definition read_csv (f : csv_file) : result frame :=
  match f with
  | Unreadable => Raise CsvError
  | Readable df => Ok df
  end.

(** The file of an upload: its name and its content. *)
Record file_storage : Type := {
  fs_filename : str;
  fs_content : csv_file
}.

(** What the handlers keep on disk: [data/timetable.csv] ([None] when there
    is no file) and the series plotted in [static/hall_usage.png]. *)
Record site : Type := {
  timetable_csv : option csv_file;
  hall_usage_png : option (list (str * nat))
}.

Definition msg_no_file_part : str := lit "No file part in request.".
Definition msg_no_file_selected : str := lit "No file selected.".
Definition msg_uploaded : str :=
  9989%N :: lit " Timetable uploaded successfully!".
Definition msg_chart_updated : str :=
  128202%N :: lit " Hall usage chart updated.".
Definition msg_invalid_type : str :=
  10060%N :: lit " Invalid file type. Please upload a CSV file.".

(** [bool(file)] of a werkzeug [FileStorage]: its name is not empty. *)
Definition file_truthy (f : file_storage) : bool :=
  match fs_filename f with [] => false | _ :: _ => true end.

(** A request to "/": [request.method], and for a POST the fields "day" and
    "time" of the form when they are present. *)
Inductive http_request : Type :=
| GET
| POST (form_day form_time : option str).

(** What [index] gives the template (the time of the last update, read from
    the clock of the file system, is left out). *)
Record page : Type := {
  p_free_halls : list str;
  p_occupied_halls : list str;
  p_conflicts : list conflict;
  p_day : str;
  p_time : str;
  p_day_options : list str;
  p_time_options : list str;
  p_stats : stats
}.

Section Handlers.
Variable U : pylib.

(** [load_timetable()], lines 27-54, from the file on disk ([None]: there is
    none). Nothing catches what [pd.read_csv] raises. *)
Definition load_timetable_from (stored : option csv_file) : result frame :=
  match stored with
  | None => Ok (load_timetable U None)
  | Some f => df <- read_csv f ;; Ok (load_timetable U (Some df))
  end.

(** [upload_file], lines 163-187: the messages flashed before the redirect to
    "/", or the exception, and the files on disk afterwards. *)
Definition upload_file (files : option file_storage) (st : site)
  : result (list str) * site :=
  match files with
  | None => (Ok [msg_no_file_part], st)
  | Some file =>
      match fs_filename file with
      | [] => (Ok [msg_no_file_selected], st)
      | _ :: _ =>
          if file_truthy file && allowed_file U (fs_filename file) then
            let saved := {| timetable_csv := Some (fs_content file);
                            hall_usage_png := hall_usage_png st |} in
            match load_timetable_from (timetable_csv saved) with
            | Raise e => (Raise e, saved)
            | Ok df =>
                match generate_chart U df with
                | Raise e => (Raise e, saved)
                | Ok None => (Ok [msg_uploaded; msg_chart_updated], saved)
                | Ok (Some hall_counts) =>
                    (Ok [msg_uploaded; msg_chart_updated],
                     {| timetable_csv := timetable_csv saved;
                        hall_usage_png := Some hall_counts |})
                end
            end
          else (Ok [msg_invalid_type], st)
      end
  end.

(** [request.form.get(name, "")] *)
Definition form_get (field : option str) : str :=
  match field with
  | Some v => v
  | None => []
  end.

(** [index], lines 121-160. *)
Definition index (st : site) (req : http_request) : result page :=
  df <- load_timetable_from (timetable_csv st) ;;
  let day_options := day_options df in
  let time_options := time_options df in
  s <- index_stats U df ;;
  match req with
  | GET =>
      Ok {| p_free_halls := []; p_occupied_halls := []; p_conflicts := [];
            p_day := []; p_time := [];
            p_day_options := day_options; p_time_options := time_options;
            p_stats := s |}
  | POST form_day form_time =>
      let day := form_get form_day in
      let time := form_get form_time in
      halls <- get_free_halls U df day time ;;
      conflicts <- detect_conflicts df ;;
      Ok {| p_free_halls := fst halls; p_occupied_halls := snd halls;
            p_conflicts := conflicts;
            p_day := day; p_time := time;
            p_day_options := day_options; p_time_options := time_options;
            p_stats := s |}
  end.

(** [chart_data], lines 196-205, from the file on disk. *)
Definition chart_data_of (st : site) : result (list str * list nat) :=
  match timetable_csv st with
  | None => Ok (chart_data U None)
  | Some f => df <- read_csv f ;; Ok (chart_data U (Some df))
  end.

End Handlers.

(* ================================================================= *)
(** ** More readings of the results *)



Definition ascii_text (s : str) : bool := forallb is_ascii s.

(** The (day, time, hall) of an entry of the report. *)
Definition conflict_slot (c : conflict) : cell * cell * cell :=
  (c_Day c, c_Time c, c_Lecture_Hall c).

Definition slot_of_key (k : key) : cell * cell * cell :=
  let '(d, t, h) := k in (Str d, Str t, Str h).

(** An upload with a name and a readable file. *)
Definition an_upload (name : string) (content : frame) : option file_storage :=
  Some {| fs_filename := lit name; fs_content := Readable content |}.



(** Rows whose hall cells are all empty. *)
Definition csv_no_hall_values : frame :=
  timetable [line (text "Monday") (text "09:00") NA (text "CS101")].

Definition no_files : site :=
  {| timetable_csv := None; hall_usage_png := None |}.

(** A file with a header and no line. *)
Definition csv_header_only : frame := timetable [].

(* ================================================================= *)
(** * Properties *)

(** ** Strings *)

Lemma str_eqb_eq (a b : str) : str_eqb a b = true <-> a = b.
Proof.
  unfold str_eqb. destruct (list_eq_dec N.eq_dec a b); split; congruence.
Qed.

Lemma str_eqb_refl (a : str) : str_eqb a a = true.
Proof. now apply str_eqb_eq. Qed.

Lemma str_eqb_neq (a b : str) : str_eqb a b = false <-> a <> b.
Proof.
  unfold str_eqb. destruct (list_eq_dec N.eq_dec a b); split; congruence.
Qed.

Lemma isspace_not_sp (c : N) : isspace c = false -> (c =? SP)%N = false.
Proof.
  intros H. destruct (N.eqb_spec c 32) as [->|]; [discriminate H | reflexivity].
Qed.

(** *** [replace] *)

Lemma replace_from_skip (old new : str) (s : str) (k : nat) :
  replace_from old new k s = replace_from old new 0 (skipn k s).
Proof.
  revert k. induction s as [|c s IH]; intros [|k]; simpl; auto.
Qed.

Lemma replace_from_nil (old new : str) (k : nat) :
  replace_from old new k [] = [].
Proof. destruct k; reflexivity. Qed.

(** *** [sub_ws] *)

Lemma spaced_weaken (s : str) (b : bool) : spaced true s = true -> spaced b s = true.
Proof.
  destruct s as [|c s]; simpl; auto.
  destruct (isspace c); auto.
  intros H. apply andb_prop in H as [H _]. apply andb_prop in H as [_ H].
  discriminate H.
Qed.

Lemma sub_ws_spaced (s : str) (b : bool) : spaced b (sub_ws_from b s) = true.
Proof.
  revert b. induction s as [|c s IH]; intros b; simpl; auto.
  destruct (isspace c) eqn:E.
  - destruct b; simpl; rewrite ?IH; auto.
  - simpl. now rewrite E.
Qed.

Lemma sub_ws_fixed (s : str) (b : bool) :
  spaced b s = true -> sub_ws_from b s = s.
Proof.
  revert b. induction s as [|c s IH]; intros b; simpl; auto.
  destruct (isspace c) eqn:E.
  - intros H. apply andb_prop in H as [H H2]. apply andb_prop in H as [H H1].
    apply N.eqb_eq in H. subst c. destruct b; [discriminate|].
    now rewrite IH.
  - intros H. now rewrite IH.
Qed.

Lemma sub_ws_Forall (P : N -> Prop) (s : str) (b : bool) :
  P SP -> Forall P s -> Forall P (sub_ws_from b s).
Proof.
  intros HP H. revert b. induction H as [|c s Hc H IH]; intros b; simpl; auto.
  destruct (isspace c); [destruct b|]; auto.
Qed.

(** *** [del] *)

Lemma del_id (m : ctx_test) (s : str) (p : option N) :
  okctx m p s = true -> del m p s = s.
Proof.
  revert p. induction s as [|c s IH]; intros p; simpl; auto.
  intros H. apply andb_prop in H as [H1 H2].
  apply negb_true_iff in H1. rewrite H1. now rewrite IH.
Qed.

Lemma del_Forall (P : N -> Prop) (m : ctx_test) (s : str) (p : option N) :
  Forall P s -> Forall P (del m p s).
Proof.
  intros H. revert p. induction H as [|c s Hc H IH]; intros p; simpl; auto.
  destruct ((c =? 32)%N && m p (hd_error s)); auto.
Qed.

Lemma del_spaced (m : ctx_test) (s : str) (p : option N) (b : bool) :
  spaced b s = true -> spaced b (del m p s) = true.
Proof.
  revert p b. induction s as [|c s IH]; intros p b; simpl; auto.
  destruct (isspace c) eqn:E.
  - intros H. apply andb_prop in H as [H H2]. apply andb_prop in H as [H H1].
    destruct ((c =? 32)%N && m p (hd_error s)).
    + apply spaced_weaken. now apply IH.
    + simpl. rewrite E, H, H1. simpl. now apply IH.
  - intros H. rewrite (isspace_not_sp _ E). simpl. rewrite E. now apply IH.
Qed.

(** What follows a space that stays is not touched. *)
Lemma del_hd (m : ctx_test) (s : str) (p : option N) :
  spaced true s = true -> hd_error (del m p s) = hd_error s.
Proof.
  destruct s as [|c s]; simpl; auto.
  destruct (isspace c) eqn:E.
  - rewrite andb_false_r. discriminate.
  - now rewrite (isspace_not_sp _ E).
Qed.

Lemma okctx_prev (m : ctx_test) (s : str) (p q : option N) :
  spaced true s = true -> okctx m p s = okctx m q s.
Proof.
  destruct s as [|c s]; simpl; auto.
  destruct (isspace c) eqn:E.
  - rewrite andb_false_r. discriminate.
  - now rewrite (isspace_not_sp _ E).
Qed.

(** If every space that [m'] accepts is one [m] removes, none is left. *)
Lemma del_okctx (m m' : ctx_test) (s : str) (p : option N) (b : bool) :
  spaced b s = true ->
  okctx (fun a n => m' a n && negb (m a n)) p s = true ->
  okctx m' p (del m p s) = true.
Proof.
  revert p b. induction s as [|c s IH]; intros p b; simpl; auto.
  destruct (isspace c) eqn:E.
  - intros H. apply andb_prop in H as [H H2]. apply andb_prop in H as [H H1].
    intros K. apply andb_prop in K as [K1 K2].
    rewrite H in *. simpl in *.
    destruct (m p (hd_error s)) eqn:M.
    + rewrite (okctx_prev m' (del m (Some c) s) p (Some c)).
      * now apply IH with (b := true).
      * now apply del_spaced.
    + simpl. rewrite H. simpl. rewrite (del_hd _ _ _ H2).
      rewrite andb_true_r in K1. rewrite K1. simpl.
      now apply IH with (b := true).
  - intros H K. rewrite (isspace_not_sp _ E) in *. simpl in *.
    rewrite (isspace_not_sp _ E). simpl. now apply IH with (b := false).
Qed.

Lemma okctx_mono (m m' : ctx_test) (s : str) (p : option N) :
  (forall a n, m' a n = true -> m a n = true) ->
  okctx m p s = true -> okctx m' p s = true.
Proof.
  intros Hm. revert p. induction s as [|c s IH]; intros p; simpl; auto.
  intros H. apply andb_prop in H as [H1 H2]. rewrite (IH _ H2), andb_true_r.
  apply negb_true_iff in H1. apply negb_true_iff.
  destruct (c =? 32)%N; simpl in *; auto.
  destruct (m' p (hd_error s)) eqn:E; auto. apply Hm in E. congruence.
Qed.

Lemma del_okctx_self (m : ctx_test) (s : str) (p : option N) (b : bool) :
  spaced b s = true -> okctx m p (del m p s) = true.
Proof.
  intros H. apply del_okctx with (b := b); auto.
  clear H. revert p. induction s as [|c s IH]; intros p; simpl; auto.
  rewrite IH, andb_negb_r, andb_false_r. reflexivity.
Qed.

Lemma del_okctx_keep (m m' : ctx_test) (s : str) (p : option N) (b : bool) :
  spaced b s = true -> okctx m' p s = true -> okctx m' p (del m p s) = true.
Proof.
  intros H K. apply del_okctx with (b := b); auto.
  revert K. apply okctx_mono. intros a n E. now apply andb_prop in E.
Qed.

(** *** [replace] as the removal of spaces *)

Lemma is_prefix_app (p s : str) :
  is_prefix p s = true <-> exists s', s = p ++ s'.
Proof.
  revert s. induction p as [|a p IH]; intros s; simpl.
  - split; eauto.
  - destruct s as [|c s].
    + split; [discriminate | intros [s' H]; discriminate H].
    + rewrite andb_true_iff, N.eqb_eq, IH. split.
      * intros [-> [s' ->]]. eauto.
      * intros [s' H]. injection H as -> ->. eauto.
Qed.

Lemma replace_from_cons (old new : str) (c : N) (s : str) :
  replace_from old new 0 (c :: s) =
  if is_prefix old (c :: s)
  then new ++ replace_from old new 0 (skipn (List.length old - 1) s)
  else c :: replace_from old new 0 s.
Proof.
  cbn [replace_from]. now rewrite replace_from_skip.
Qed.

Lemma is_char_true (a : N) (o : option N) : is_char a o = true <-> o = Some a.
Proof.
  destruct o as [c|]; simpl.
  - rewrite N.eqb_eq. split; congruence.
  - split; discriminate.
Qed.

Lemma is_char_same (a : N) : is_char a (Some a) = true.
Proof. now apply is_char_true. Qed.

Lemma is_char_other (a c : N) : c <> a -> is_char a (Some c) = false.
Proof. intros H. simpl. now apply N.eqb_neq. Qed.

Lemma after_char_eq (a : N) (p n : option N) : after_char a p n = is_char a p.
Proof. reflexivity. Qed.

Lemma before_char_eq (b : N) (p n : option N) : before_char b p n = is_char b n.
Proof. reflexivity. Qed.

Lemma between_eq (a b : N) (p n : option N) :
  between a b p n = is_char a p && is_char b n.
Proof. reflexivity. Qed.

Lemma replace_after_char (a : N) (n : nat) :
  a <> SP ->
  forall (s : str) (prev : option N),
    List.length s <= n ->
    (prev = Some a -> hd_error s <> Some SP) ->
    replace_from [a; SP] [a] 0 s = del (after_char a) prev s.
Proof.
  intros Ha. induction n as [|n IH]; intros [|c s] prev Hn Hp; simpl in Hn;
    try reflexivity; try lia.
  rewrite replace_from_cons.
  destruct (is_prefix [a; 32%N] (c :: s)) eqn:E.
  - apply is_prefix_app in E as [s' E]. injection E as -> ->.
    cbn [del hd_error List.length Nat.sub skipn app].
    rewrite (proj2 (N.eqb_neq a 32) Ha). cbn [andb].
    rewrite after_char_eq, is_char_same, N.eqb_refl. cbn [andb].
    f_equal. apply IH; [simpl in Hn; lia|].
    intros H. injection H as H. congruence.
  - cbn [del]. rewrite after_char_eq.
    destruct ((c =? 32)%N && is_char a prev) eqn:K.
    + apply andb_prop in K as [K1 K2]. apply N.eqb_eq in K1.
      apply is_char_true in K2. subst c. now destruct (Hp K2).
    + f_equal. apply IH; [lia|].
      intros H. injection H as ->. intros H'.
      destruct s as [|d s]; [discriminate|]. injection H' as ->.
      simpl in E. now rewrite N.eqb_refl in E.
Qed.

Lemma replace_before_char (b : N) (n : nat) :
  b <> SP ->
  forall (s : str) (prev : option N),
    List.length s <= n ->
    replace_from [SP; b] [b] 0 s = del (before_char b) prev s.
Proof.
  intros Hb. induction n as [|n IH]; intros [|c s] prev Hn; simpl in Hn;
    try reflexivity; try lia.
  rewrite replace_from_cons.
  destruct (is_prefix [32%N; b] (c :: s)) eqn:E.
  - apply is_prefix_app in E as [s' E]. injection E as -> ->.
    cbn [del hd_error List.length Nat.sub skipn app].
    rewrite before_char_eq, is_char_same. cbn [N.eqb Pos.eqb andb hd_error].
    rewrite (proj2 (N.eqb_neq b 32) Hb). cbn [andb].
    f_equal. apply IH. simpl in Hn; lia.
  - cbn [del]. rewrite before_char_eq.
    destruct ((c =? 32)%N && is_char b (hd_error s)) eqn:K.
    + apply andb_prop in K as [K1 K2]. apply N.eqb_eq in K1.
      apply is_char_true in K2. subst c.
      destruct s as [|d s]; [discriminate|]. injection K2 as ->.
      simpl in E. now rewrite N.eqb_refl in E.
    + f_equal. apply IH. lia.
Qed.

Lemma replace_between (a b : N) (n : nat) :
  a <> SP -> b <> SP -> a <> b ->
  forall (s : str) (prev : option N),
    List.length s <= n ->
    (prev = Some a -> is_prefix [SP; b] s = false) ->
    replace_from [a; SP; b] [a; b] 0 s = del (between a b) prev s.
Proof.
  intros Ha Hb Hab. induction n as [|n IH]; intros [|c s] prev Hn Hp;
    simpl in Hn; try reflexivity; try lia.
  rewrite replace_from_cons.
  destruct (is_prefix [a; 32%N; b] (c :: s)) eqn:E.
  - apply is_prefix_app in E as [s' E]. injection E as -> ->.
    cbn [del hd_error List.length Nat.sub skipn app].
    rewrite (proj2 (N.eqb_neq a 32) Ha). cbn [andb].
    rewrite between_eq, !is_char_same. cbn [N.eqb Pos.eqb andb hd_error].
    rewrite (proj2 (N.eqb_neq b 32) Hb). cbn [andb].
    do 2 f_equal. apply IH; [simpl in Hn; lia|].
    intros H. injection H as H. congruence.
  - cbn [del]. rewrite between_eq.
    destruct ((c =? 32)%N && (is_char a prev && is_char b (hd_error s))) eqn:K.
    + apply andb_prop in K as [K1 K2]. apply andb_prop in K2 as [K2 K3].
      apply N.eqb_eq in K1. apply is_char_true in K2, K3. subst c.
      specialize (Hp K2). destruct s as [|d s]; [discriminate|].
      injection K3 as ->. simpl in Hp. now rewrite N.eqb_refl in Hp.
    + f_equal. apply IH; [lia|].
      intros H. injection H as ->.
      destruct (is_prefix [32%N; b] s) eqn:F; auto.
      cbn [is_prefix] in E. cbn [is_prefix] in F.
      rewrite N.eqb_refl in E. cbn [andb] in E. congruence.
Qed.

Lemma replace_open_paren (s : str) :
  replace (lit "( ") (lit "(") s = del (after_char 40) None s.
Proof.
  apply (@replace_after_char 40%N (List.length s)); auto; discriminate.
Qed.

Lemma replace_close_paren (s : str) :
  replace (lit " )") (lit ")") s = del (before_char 41) None s.
Proof.
  apply (@replace_before_char 41%N (List.length s)); auto; discriminate.
Qed.

Lemma replace_A_B (s : str) :
  replace (lit "A B") (lit "AB") s = del (between 65 66) None s.
Proof.
  apply (@replace_between 65%N 66%N (List.length s)); auto; discriminate.
Qed.

Lemma replace_E_B (s : str) :
  replace (lit "E B") (lit "EB") s = del (between 69 66) None s.
Proof.
  apply (@replace_between 69%N 66%N (List.length s)); auto; discriminate.
Qed.

(** *** [strip] *)

Lemma lstrip_app (x y : str) :
  lstrip (x ++ y) = match lstrip x with [] => lstrip y | l => l ++ y end.
Proof.
  induction x as [|c x IH]; simpl.
  - reflexivity.
  - destruct (isspace c); auto.
Qed.

Lemma rstrip_cons (c : N) (s : str) :
  rstrip (c :: s) =
  match rstrip s with
  | [] => if isspace c then [] else [c]
  | r => c :: r
  end.
Proof.
  unfold rstrip. simpl rev. rewrite lstrip_app.
  destruct (lstrip (rev s)) as [|d l] eqn:E.
  - simpl. destruct (isspace c); reflexivity.
  - rewrite rev_app_distr.
    destruct (rev (d :: l)) eqn:F; [|reflexivity].
    apply (f_equal (@List.length N)) in F. rewrite length_rev in F.
    discriminate F.
Qed.

Lemma rstrip_rec_eq (s : str) : rstrip s = rstrip_rec s.
Proof.
  induction s as [|c s IH]; [reflexivity|].
  rewrite rstrip_cons, IH. reflexivity.
Qed.

Lemma rstrip_rec_hd (s : str) :
  rstrip_rec s <> [] -> hd_error (rstrip_rec s) = hd_error s.
Proof.
  destruct s as [|c s]; simpl; auto.
  destruct (rstrip_rec s); [destruct (isspace c)|]; auto.
  intros H. now destruct H.
Qed.

Lemma rstrip_rec_Forall (P : N -> Prop) (s : str) :
  Forall P s -> Forall P (rstrip_rec s).
Proof.
  induction 1 as [|c s Hc H IH]; simpl; auto.
  destruct (rstrip_rec s); [destruct (isspace c)|]; auto.
Qed.

Lemma lstrip_Forall (P : N -> Prop) (s : str) :
  Forall P s -> Forall P (lstrip s).
Proof.
  induction 1 as [|c s Hc H IH]; simpl; auto.
  destruct (isspace c); auto.
Qed.

Lemma rstrip_rec_spaced (s : str) (b : bool) :
  spaced b s = true -> spaced b (rstrip_rec s) = true.
Proof.
  revert b. induction s as [|c s IH]; intros b H; auto.
  assert (K : spaced b (c :: rstrip_rec s) = true).
  { simpl in *. destruct (isspace c).
    - apply andb_prop in H as [H H2]. rewrite H. simpl. now apply IH.
    - now apply IH. }
  simpl. destruct (rstrip_rec s) eqn:E; auto.
  destruct (isspace c) eqn:F; auto.
Qed.

Lemma lstrip_spaced (s : str) (b : bool) :
  spaced b s = true -> spaced false (lstrip s) = true.
Proof.
  revert b. induction s as [|c s IH]; intros b H; auto.
  simpl in *. destruct (isspace c) eqn:E.
  - apply andb_prop in H as [_ H]. now apply IH with (b := true).
  - simpl. now rewrite E.
Qed.

Lemma lstrip_okctx (m : ctx_test) (s : str) (p q : option N) :
  okctx m p s = true -> okctx m q (lstrip s) = true.
Proof.
  revert p q. induction s as [|c s IH]; intros p q H; auto.
  simpl in *. apply andb_prop in H as [H1 H2].
  destruct (isspace c) eqn:E.
  - now apply IH with (p := Some c).
  - simpl. rewrite (isspace_not_sp _ E). simpl. exact H2.
Qed.

Lemma rstrip_rec_okctx (m : ctx_test) (s : str) (p : option N) :
  okctx m p s = true -> okctx m p (rstrip_rec s) = true.
Proof.
  revert p. induction s as [|c s IH]; intros p H; auto.
  simpl in H. apply andb_prop in H as [H1 H2].
  specialize (IH _ H2).
  simpl. destruct (rstrip_rec s) as [|d r] eqn:E.
  - destruct (isspace c) eqn:F; auto. simpl.
    now rewrite (isspace_not_sp _ F).
  - assert (K : hd_error (rstrip_rec s) = hd_error s)
      by (apply rstrip_rec_hd; rewrite E; discriminate).
    rewrite E in K. cbn [okctx]. rewrite K, H1. exact IH.
Qed.

(** Nothing is left to strip from a stripped text. *)
Lemma rstrip_rec_idem (s : str) : rstrip_rec (rstrip_rec s) = rstrip_rec s.
Proof.
  induction s as [|c s IH]; auto.
  simpl. destruct (rstrip_rec s) as [|d r] eqn:E.
  - destruct (isspace c) eqn:F; auto. simpl. now rewrite F.
  - change (rstrip_rec (c :: d :: r)) with
      (match rstrip_rec (d :: r) with
       | [] => if isspace c then [] else [c]
       | x => c :: x
       end).
    rewrite IH. reflexivity.
Qed.

Lemma lstrip_rstrip_rec (s : str) :
  lstrip s = s -> lstrip (rstrip_rec s) = rstrip_rec s.
Proof.
  destruct s as [|c s]; auto.
  intros H. simpl in H. destruct (isspace c) eqn:E.
  - exfalso. assert (K : List.length (lstrip s) <= List.length s).
    { clear. induction s as [|d s IH]; simpl; auto.
      destruct (isspace d); simpl; lia. }
    rewrite H in K. simpl in K. lia.
  - simpl. destruct (rstrip_rec s); rewrite ?E; simpl; now rewrite E.
Qed.

Lemma lstrip_idem (s : str) : lstrip (lstrip s) = lstrip s.
Proof.
  induction s as [|c s IH]; auto.
  simpl. destruct (isspace c) eqn:E; auto. simpl. now rewrite E.
Qed.

Lemma strip_idem (s : str) : strip (strip s) = strip s.
Proof.
  unfold strip. rewrite !rstrip_rec_eq.
  rewrite (lstrip_rstrip_rec _ (lstrip_idem s)).
  apply rstrip_rec_idem.
Qed.

(** *** [upper] *)

Lemma upper_fixed (U : pylib) (s : str) :
  Forall (fun c => to_upper_full U c = [c]) s -> upper U s = s.
Proof.
  unfold upper. induction 1 as [|c s Hc H IH]; simpl; auto.
  now rewrite Hc, IH.
Qed.

Lemma upper_stable_Forall (U : pylib) (s : str) :
  upper_stable U -> Forall (fun c => to_upper_full U c = [c]) (upper U s).
Proof.
  intros HU. unfold upper. apply Forall_forall. intros d Hd.
  apply in_flat_map in Hd as [c [_ Hd]]. eapply HU; eauto.
Qed.

Ltac cases_N :=
  repeat match goal with
    | |- context [(?a <=? ?b)%N] => destruct (N.leb_spec a b)
    | |- context [(?a <? ?b)%N] => destruct (N.ltb_spec a b)
    | |- context [(?a =? ?b)%N] => destruct (N.eqb_spec a b)
    end.

Lemma ascii_toupper_twice (c : N) :
  (c < 128)%N ->
  is_ascii (ascii_toupper c) = true /\
  ascii_toupper (ascii_toupper c) = ascii_toupper c.
Proof.
  intros Hc. unfold is_ascii, ascii_toupper, ascii_islower.
  cases_N; simpl in *; cases_N; simpl in *; split; try reflexivity; try lia.
Qed.

Lemma ascii_only_upper_stable : upper_stable ascii_only.
Proof.
  intros c d. unfold to_upper_full.
  destruct (is_ascii c) eqn:A; simpl; intros [<-|[]].
  - apply N.ltb_lt in A. destruct (ascii_toupper_twice _ A) as [H1 H2].
    now rewrite H1, H2.
  - now rewrite A.
Qed.

(** ** Hall names *)

Section HallNames.
Variable U : pylib.

Lemma clean_hall_name_text (s : str) :
  clean_hall_name U (Str s) =
  Str (strip
         (del (between 69 66) None
            (del (between 65 66) None
               (del (before_char 41) None
                  (del (after_char 40) None (sub_ws (upper U s))))))).
Proof.
  unfold clean_hall_name.
  now rewrite replace_open_paren, replace_close_paren, replace_A_B, replace_E_B.
Qed.

Lemma strip_canonical (t : str) :
  Forall (fun c => to_upper_full U c = [c]) t ->
  spaced false t = true ->
  okctx (after_char 40) None t = true ->
  okctx (before_char 41) None t = true ->
  okctx (between 65 66) None t = true ->
  okctx (between 69 66) None t = true ->
  canonical U (strip t).
Proof.
  intros HF HS H1 H2 H3 H4. unfold canonical.
  rewrite strip_idem. unfold strip. rewrite rstrip_rec_eq.
  repeat split.
  - now apply rstrip_rec_Forall, lstrip_Forall.
  - eapply rstrip_rec_spaced, lstrip_spaced; eauto.
  - eapply rstrip_rec_okctx, lstrip_okctx; eauto.
  - eapply rstrip_rec_okctx, lstrip_okctx; eauto.
  - eapply rstrip_rec_okctx, lstrip_okctx; eauto.
  - eapply rstrip_rec_okctx, lstrip_okctx; eauto.
Qed.

(** What [clean_hall_name] returns is canonical. *)
Lemma clean_hall_name_canonical (s t : str) :
  upper_stable U -> clean_hall_name U (Str s) = Str t -> canonical U t.
Proof.
  intros HU. rewrite clean_hall_name_text. intros H. injection H as <-.
  pose proof (sub_ws_spaced (upper U s) false) as HS.
  assert (HF : Forall (fun c => to_upper_full U c = [c]) (sub_ws (upper U s))).
  { apply sub_ws_Forall; [reflexivity | now apply upper_stable_Forall]. }
  fold (sub_ws (upper U s)) in HS.
  set (w := sub_ws (upper U s)) in *.
  apply strip_canonical.
  - now repeat apply del_Forall.
  - now repeat apply del_spaced.
  - do 3 (apply del_okctx_keep with (b := false);
          [now repeat apply del_spaced|]).
    now apply del_okctx_self with (b := false).
  - do 2 (apply del_okctx_keep with (b := false);
          [now repeat apply del_spaced|]).
    apply del_okctx_self with (b := false). now repeat apply del_spaced.
  - apply del_okctx_keep with (b := false); [now repeat apply del_spaced|].
    apply del_okctx_self with (b := false). now repeat apply del_spaced.
  - apply del_okctx_self with (b := false). now repeat apply del_spaced.
Qed.

(** A canonical name is returned as it is. *)
Lemma clean_hall_name_fixed (t : str) :
  canonical U t -> clean_hall_name U (Str t) = Str t.
Proof.
  intros (HF & HS & H1 & H2 & H3 & H4 & HT).
  rewrite clean_hall_name_text, (upper_fixed _ _ HF).
  unfold sub_ws. rewrite (sub_ws_fixed _ _ HS).
  rewrite (del_id _ _ _ H1), (del_id _ _ _ H2), (del_id _ _ _ H3),
    (del_id _ _ _ H4).
  now rewrite HT.
Qed.

End HallNames.

(** C6. Cleaning a hall name a second time changes nothing: for every cell,
    [clean_hall_name (clean_hall_name name) = clean_hall_name name], whenever
    the upper-case table of the Unicode database is stable (upper case of
    upper case is itself). *)
Theorem clean_hall_name_idempotent (U : pylib) (name : cell) :
  upper_stable U ->
  clean_hall_name U (clean_hall_name U name) = clean_hall_name U name.
Proof.
  intros HU. destruct name as [|s]; [reflexivity|].
  destruct (clean_hall_name U (Str s)) as [|t] eqn:E.
  - reflexivity.
  - apply clean_hall_name_fixed. eapply clean_hall_name_canonical; eauto.
Qed.

Lemma clean_hall_name_idempotent_witness :
  upper_stable ascii_only /\
  clean_hall_name ascii_only
    (clean_hall_name ascii_only (Str (lit "  lt ( a b )  e  b (x) "))) =
  clean_hall_name ascii_only (Str (lit "  lt ( a b )  e  b (x) ")).
Proof.
  split.
  - exact ascii_only_upper_stable.
  - apply (clean_hall_name_idempotent ascii_only
             (Str (lit "  lt ( a b )  e  b (x) "))).
    exact ascii_only_upper_stable.
Defined.

(** ** [sorted(set(...))] *)

Section SortedSets.
Context {A : Type} (cmp : A -> A -> comparison).
Hypothesis order : strict_order cmp.

Lemma cmp_refl (x : A) : cmp x x = Eq.
Proof. now apply (cmp_eq cmp order). Qed.

Lemma in_insert_uniq (x z : A) (l : list A) :
  In z (insert_uniq cmp x l) <-> z = x \/ In z l.
Proof.
  induction l as [|y l IH]; simpl.
  - intuition.
  - destruct (cmp x y) eqn:E; simpl.
    + apply (cmp_eq cmp order) in E. subst y. intuition.
    + intuition.
    + rewrite IH. intuition.
Qed.

Lemma in_sorted_set (z : A) (l : list A) : In z (sorted_set cmp l) <-> In z l.
Proof.
  induction l as [|x l IH]; simpl.
  - reflexivity.
  - rewrite in_insert_uniq, IH. intuition.
Qed.

Lemma insert_uniq_ascending (x : A) (l : list A) :
  ascending cmp l -> ascending cmp (insert_uniq cmp x l).
Proof.
  unfold ascending. induction 1 as [|y l Hl IH Hy]; simpl.
  - constructor; constructor.
  - destruct (cmp x y) eqn:E.
    + now constructor.
    + constructor; [now constructor|]. constructor; auto.
      rewrite Forall_forall in *. intros z Hz.
      eapply (cmp_trans cmp order); eauto.
    + constructor; auto. apply Forall_forall. intros z Hz.
      apply in_insert_uniq in Hz as [->|Hz].
      * now apply (cmp_flip cmp order).
      * rewrite Forall_forall in Hy. auto.
Qed.

Lemma sorted_set_ascending (l : list A) : ascending cmp (sorted_set cmp l).
Proof.
  induction l as [|x l IH]; simpl.
  - constructor.
  - now apply insert_uniq_ascending.
Qed.

Lemma ascending_NoDup (l : list A) : ascending cmp l -> NoDup l.
Proof.
  induction 1 as [|y l Hl IH Hy]; constructor; auto.
  intros Hin. rewrite Forall_forall in Hy. specialize (Hy _ Hin).
  rewrite cmp_refl in Hy. discriminate.
Qed.

Lemma sorted_set_NoDup (l : list A) : NoDup (sorted_set cmp l).
Proof. apply ascending_NoDup, sorted_set_ascending. Qed.

(** Inserting below everything puts the element in front. *)
Lemma insert_uniq_below (x : A) (l : list A) :
  Forall (fun y => cmp x y = Lt) l -> insert_uniq cmp x l = x :: l.
Proof.
  destruct 1 as [|y l Hy Hl]; simpl; auto. now rewrite Hy.
Qed.

Lemma filter_insert_uniq (p : A -> bool) (x : A) (l : list A) :
  ascending cmp l ->
  filter p (insert_uniq cmp x l) =
  if p x then insert_uniq cmp x (filter p l) else filter p l.
Proof.
  unfold ascending. induction 1 as [|y l Hl IH Hy]; simpl.
  - destruct (p x); reflexivity.
  - destruct (cmp x y) eqn:E; simpl.
    + apply (cmp_eq cmp order) in E. subst y.
      destruct (p x) eqn:P; auto. simpl. now rewrite cmp_refl.
    + destruct (p x) eqn:P; auto.
      destruct (p y) eqn:Q; simpl.
      * now rewrite E.
      * symmetry. apply insert_uniq_below. apply Forall_forall.
        intros z Hz. apply filter_In in Hz as [Hz _].
        rewrite Forall_forall in Hy.
        eapply (cmp_trans cmp order); eauto.
    + rewrite IH. destruct (p x) eqn:P; destruct (p y) eqn:Q; simpl;
        rewrite ?E; auto.
Qed.

Lemma filter_sorted_set (p : A -> bool) (l : list A) :
  sorted_set cmp (filter p l) = filter p (sorted_set cmp l).
Proof.
  induction l as [|x l IH]; simpl; auto.
  rewrite filter_insert_uniq by apply sorted_set_ascending.
  destruct (p x); simpl; now rewrite IH.
Qed.

End SortedSets.

(** *** The order of strings and of keys *)

Lemma str_compare_eq (a b : str) : str_compare a b = Eq <-> a = b.
Proof.
  revert b. induction a as [|x a IH]; intros [|y b]; simpl;
    try (split; [discriminate | congruence]); try tauto.
  destruct (N.compare_spec x y) as [->|H|H].
  - rewrite IH. split; congruence.
  - split; [discriminate|]. intros E. injection E as -> _. lia.
  - split; [discriminate|]. intros E. injection E as -> _. lia.
Qed.

Lemma str_compare_trans (a b c : str) :
  str_compare a b = Lt -> str_compare b c = Lt -> str_compare a c = Lt.
Proof.
  revert b c. induction a as [|x a IH]; intros [|y b] [|z c]; simpl;
    try discriminate; auto.
  destruct (N.compare_spec x y) as [->|H|H]; try discriminate.
  - destruct (N.compare_spec y z) as [->|K|K]; try discriminate; auto.
    apply IH.
  - destruct (N.compare_spec y z) as [->|K|K]; try discriminate; intros _ _.
    + destruct (N.compare_spec x z); auto; lia.
    + destruct (N.compare_spec x z); auto; lia.
Qed.

Lemma str_compare_flip (a b : str) :
  str_compare a b = Gt -> str_compare b a = Lt.
Proof.
  revert b. induction a as [|x a IH]; intros [|y b]; simpl;
    try discriminate; auto.
  rewrite (N.compare_antisym x y).
  destruct (x ?= y)%N; simpl; try discriminate; auto.
Qed.

Lemma str_order : strict_order str_compare.
Proof.
  constructor.
  - apply str_compare_eq.
  - apply str_compare_trans.
  - apply str_compare_flip.
Qed.

Lemma str_compare_refl (a : str) : str_compare a a = Eq.
Proof. now apply str_compare_eq. Qed.

Lemma key_order : strict_order key_compare.
Proof.
  constructor.
  - intros [[d1 t1] h1] [[d2 t2] h2]. simpl.
    destruct (str_compare d1 d2) eqn:D;
      try (split; [discriminate | intros E; injection E as -> -> ->;
                                  rewrite str_compare_refl in D; discriminate]).
    destruct (str_compare t1 t2) eqn:T;
      try (split; [discriminate | intros E; injection E as -> -> ->;
                                  rewrite str_compare_refl in T; discriminate]).
    apply str_compare_eq in D, T. subst. rewrite str_compare_eq.
    split; congruence.
  - intros [[d1 t1] h1] [[d2 t2] h2] [[d3 t3] h3]. simpl.
    destruct (str_compare d1 d2) eqn:D12; try discriminate.
    + apply str_compare_eq in D12. subst d2.
      destruct (str_compare d1 d3) eqn:D13; try discriminate; auto.
      destruct (str_compare t1 t2) eqn:T12; try discriminate.
      * apply str_compare_eq in T12. subst t2.
        destruct (str_compare t1 t3); try discriminate; auto.
        apply str_compare_trans.
      * intros _. destruct (str_compare t2 t3) eqn:T23; try discriminate.
        -- apply str_compare_eq in T23. subst t3. now rewrite T12.
        -- now rewrite (str_compare_trans _ _ _ T12 T23).
    + intros _. destruct (str_compare d2 d3) eqn:D23; try discriminate.
      * apply str_compare_eq in D23. subst d3. now rewrite D12.
      * now rewrite (str_compare_trans _ _ _ D12 D23).
  - intros [[d1 t1] h1] [[d2 t2] h2]. simpl.
    destruct (str_compare d1 d2) eqn:D; try discriminate.
    + apply str_compare_eq in D. subst d2. rewrite str_compare_refl.
      destruct (str_compare t1 t2) eqn:T; try discriminate.
      * apply str_compare_eq in T. subst t2. rewrite str_compare_refl.
        apply str_compare_flip.
      * now rewrite (str_compare_flip _ _ T).
    + now rewrite (str_compare_flip _ _ D).
Qed.

Lemma key_eqb_eq (a b : key) : key_eqb a b = true <-> a = b.
Proof.
  destruct a as [[d1 t1] h1], b as [[d2 t2] h2]. simpl.
  rewrite !andb_true_iff, !str_eqb_eq. split.
  - intros [[-> ->] ->]. reflexivity.
  - intros E. injection E as -> -> ->. auto.
Qed.

Lemma key_eqb_refl (k : key) : key_eqb k k = true.
Proof. now apply key_eqb_eq. Qed.

Lemma mem_In (x : str) (l : list str) : mem x l = true <-> In x l.
Proof.
  unfold mem. rewrite existsb_exists. split.
  - intros [y [Hy E]]. apply str_eqb_eq in E. now subst.
  - intros H. exists x. split; auto. apply str_eqb_refl.
Qed.

Lemma in_dropna (h : str) (col : list cell) : In h (dropna col) <-> In (Str h) col.
Proof.
  induction col as [|[|s] col IH]; simpl.
  - reflexivity.
  - rewrite IH. split; auto. intros [H|H]; [discriminate|auto].
  - rewrite IH. split; intros [H|H]; auto; left; congruence.
Qed.

(** ** The availability query *)

Section Availability.
Variable U : pylib.

Lemma empty_rows (df : frame) : empty df = true <-> rows df = [].
Proof.
  unfold empty. destruct (rows df); split; congruence.
Qed.

Lemma in_all_halls (df : frame) (h : str) :
  In h (all_halls df) <-> exists r, In r (rows df) /\ Lecture_Hall r = Str h.
Proof.
  unfold all_halls. rewrite (in_sorted_set _ str_order), in_dropna, in_map_iff.
  split; intros [r [H1 H2]]; exists r; auto.
Qed.

(** What [get_free_halls] returns when it returns. *)
Lemma get_free_halls_Ok (df : frame) (day time : str) (free occ : list str) :
  get_free_halls U df day time = Ok (free, occ) ->
  rows df = [] /\ free = [] /\ occ = [] \/
  exists found,
    str_contains U (strip time) = Ok found /\
    occ = sorted_set str_compare
            (dropna (map Lecture_Hall
               (filter (fun r => cell_is (Day r) (title U (strip day))
                                 && found (Time r)) (rows df)))) /\
    free = sorted_set str_compare
             (filter (fun h => negb (mem h occ)) (all_halls df)).
Proof.
  unfold get_free_halls. destruct (empty df) eqn:E.
  - intros H. injection H as <- <-. left. now apply empty_rows in E.
  - destruct (has_Day df); [|discriminate].
    destruct (has_Time df); [|discriminate]. cbn [need bind].
    destruct (str_contains U (strip time)) as [found|e]; [|discriminate].
    cbn [bind]. destruct (has_Lecture_Hall df); [|discriminate].
    cbn [need bind]. intros H. injection H as <- <-. right. eauto.
Qed.

(** With its three columns and a pattern that compiles, the query returns. *)
Lemma get_free_halls_returns (df : frame) (day time : str) :
  has_Day df = true -> has_Time df = true -> has_Lecture_Hall df = true ->
  re_compile U (strip time) <> None ->
  exists free occ, get_free_halls U df day time = Ok (free, occ).
Proof.
  intros HD HT HH HR. unfold get_free_halls, str_contains.
  destruct (empty df); [eauto|]. rewrite HD, HT, HH.
  destruct (re_compile U (strip time)); [|now destruct HR].
  cbn [need bind]. eauto.
Qed.

End Availability.

(** C5. Whenever the availability query returns, the free and the occupied
    halls have nothing in common and together they are the halls that occur
    in the dataset (missing halls apart); neither list repeats a hall. *)
Theorem free_occupied_partition (U : pylib) (df : frame) (day time : str)
    (free occ : list str) :
  get_free_halls U df day time = Ok (free, occ) ->
  (forall h, In h free -> In h occ -> False) /\
  (forall h, In h free \/ In h occ <->
             exists r, In r (rows df) /\ Lecture_Hall r = Str h) /\
  NoDup free /\ NoDup occ.
Proof.
  intros H. apply get_free_halls_Ok in H as [(Hr & -> & ->)|(found & _ & Ho & Hf)].
  - split; [|split; [|split]].
    + intros h [].
    + intros h. split; [intros [[]|[]]|].
      intros [r [Hin _]]. rewrite Hr in Hin. destruct Hin.
    + apply NoDup_nil.
    + apply NoDup_nil.
  - assert (Hfree : forall h, In h free <-> In h (all_halls df) /\ ~ In h occ).
    { intros h. rewrite Hf, (in_sorted_set _ str_order), filter_In.
      rewrite negb_true_iff, <- not_true_iff_false, mem_In. reflexivity. }
    assert (Hocc : forall h, In h occ -> In h (all_halls df)).
    { intros h. rewrite Ho, (in_sorted_set _ str_order), in_dropna, in_map_iff.
      intros [r [H1 H2]]. apply filter_In in H2 as [H2 _].
      apply in_all_halls. eauto. }
    split; [|split; [|split]].
    + intros h H1 H2. apply Hfree in H1. tauto.
    + intros h. split.
      * intros [H|H]; apply in_all_halls; [apply Hfree in H; tauto | auto].
      * intros H. apply in_all_halls in H. rewrite Hfree.
        destruct (mem h occ) eqn:M.
        -- right. now apply mem_In.
        -- left. split; auto. rewrite <- mem_In. congruence.
    + rewrite Hf. apply (sorted_set_NoDup _ str_order).
    + rewrite Ho. apply (sorted_set_NoDup _ str_order).
Qed.

Lemma free_occupied_partition_witness :
  let df := load_timetable ascii_only (Some csv_lab) in
  get_free_halls ascii_only df (lit " monday") (lit "11:") =
    Ok ([lit "LT 1"], [lit "LT 2"]) /\
  (forall h, In h [lit "LT 1"] -> In h [lit "LT 2"] -> False).
Proof.
  split.
  - reflexivity.
  - apply (free_occupied_partition ascii_only
             (load_timetable ascii_only (Some csv_lab))
             (lit " monday") (lit "11:") [lit "LT 1"] [lit "LT 2"]).
    reflexivity.
Defined.

(** ** No data *)

(** C9. On a dataset without a line (no file, or a file with a header only)
    the availability query returns two empty lists, conflict detection an
    empty list, the usage counts empty labels and values, and the summary
    statistics 0, 0, "N/A" and "N/A"; none of them raises. *)
Theorem empty_dataset_safe (U : pylib) (csv : option frame) (day time : str) :
  empty (load_timetable U csv) = true ->
  get_free_halls U (load_timetable U csv) day time = Ok ([], []) /\
  detect_conflicts (load_timetable U csv) = Ok [] /\
  chart_data U csv = ([], []) /\
  generate_chart U (load_timetable U csv) = Ok None /\
  index_stats U (load_timetable U csv) =
    Ok {| total_courses := 0; total_halls := 0;
          most_used := lit "N/A"; least_used := lit "N/A" |}.
Proof.
  intros E. unfold get_free_halls, detect_conflicts, chart_data, generate_chart.
  rewrite E. repeat split.
  apply empty_rows in E. unfold index_stats. rewrite E.
  destruct (has_Lecture_Hall (load_timetable U csv)); reflexivity.
Qed.

Lemma empty_dataset_safe_witness :
  empty (load_timetable ascii_only None) = true /\
  get_free_halls ascii_only (load_timetable ascii_only None)
    (lit "Monday") (lit "09") = Ok ([], []).
Proof.
  split.
  - reflexivity.
  - apply (empty_dataset_safe ascii_only None (lit "Monday") (lit "09")).
    reflexivity.
Defined.

(** ** Missing columns *)

(** C3, where the code departs from it. A file with at least one line but no
    "Lecture Hall" column loads; [chart_data] and the statistics guard the
    column and answer as for no hall at all; [get_free_halls] and
    [detect_conflicts] read the columns without a guard and raise, whatever
    the other columns, the lines and the query. *)
Theorem missing_column_raises (U : pylib) (d t c : bool) (r : row)
    (rs : list row) (day time : str) :
  let csv := {| has_Day := d; has_Time := t; has_Lecture_Hall := false;
                has_Course_Code := c; rows := r :: rs |} in
  let df := load_timetable U (Some csv) in
  chart_data U (Some csv) = ([], []) /\
  total_halls_of (index_stats U df) = Some 0 /\
  (exists e, get_free_halls U df day time = Raise e) /\
  (exists column, detect_conflicts df = Raise (KeyError column)).
Proof.
  intros csv df. split; [reflexivity|]. split; [reflexivity|]. split.
  - unfold get_free_halls. cbn [df csv load_timetable empty rows map].
    cbn [has_Day has_Time has_Lecture_Hall].
    destruct d; [|cbn; eauto]. destruct t; [|cbn; eauto]. cbn [need bind].
    destruct (str_contains U (strip time)); cbn; eauto.
  - unfold detect_conflicts. cbn [df csv load_timetable empty rows map].
    cbn [has_Day has_Time has_Lecture_Hall].
    destruct d; [|cbn; eauto]. destruct t; cbn; eauto.
Qed.

(** ** The time query is a regular expression *)

(** C2, where the code departs from it. On every dataset with the four
    columns and at least one line, the time query "(" does not compile as a
    pattern and the query raises, whatever the day. *)
Theorem paren_query_raises (U : pylib) (r : row) (rs : list row) (day : str) :
  get_free_halls U (load_timetable U (Some (timetable (r :: rs)))) day (lit "(")
  = Raise ReError.
Proof.
  unfold get_free_halls.
  change (empty (load_timetable U (Some (timetable (r :: rs))))) with false.
  cbv iota.
  change (strip (lit "(")) with (lit "(").
  unfold str_contains, re_compile.
  change (re_parse [] lv_start (lit "(")) with BadPattern.
  reflexivity.
Qed.

(** The time "09:00-10:00 (Lab)" is in the drop-down list and is the time of
    the line of hall LT 1 on Monday; asked for that time, the query finds the
    hall free: the parentheses of the query are a group. *)
Lemma lab_query_misses (U : pylib) :
  let df := load_timetable U (Some csv_lab) in
  In (lit "09:00-10:00 (Lab)") (time_options df) /\
  contains (lit "09:00-10:00 (Lab)") (lit "09:00-10:00 (Lab)") = true /\
  get_free_halls U df (lit "Monday") (lit "09:00-10:00 (Lab)") =
    Ok ([lit "LT 1"; lit "LT 2"], []).
Proof.
  repeat split. simpl. auto.
Qed.

(** A "." in the query stands for any character. *)
Lemma dot_query_matches (U : pylib) :
  let df := load_timetable U (Some csv_lab) in
  icontains U (lit "11.00") (lit "10:00-11:00") = false /\
  get_free_halls U df (lit "Monday") (lit "11.00") =
    Ok ([lit "LT 1"], [lit "LT 2"]).
Proof. repeat split. Qed.

(** ** Queries without special characters *)

Section Literal.
Variable U : pylib.

Lemma not_special (c : N) :
  re_special c = false ->
  (c =? 40)%N = false /\ (c =? 41)%N = false /\
  (c =? 124)%N = false /\ (c =? 46)%N = false.
Proof.
  intros H. repeat split; apply N.eqb_neq; intros ->; discriminate H.
Qed.

Lemma re_parse_literal (q : str) (top : level) :
  literal q = true ->
  re_parse [] top q =
  Parsed (lv_close {| lv_done := lv_done top; lv_cur := lits (lv_cur top) q |}).
Proof.
  revert top. induction q as [|c q IH]; intros top H.
  - now destruct top.
  - simpl in H. apply andb_prop in H as [Hc Hq].
    apply negb_true_iff in Hc.
    destruct (not_special _ Hc) as (E1 & E2 & E3 & E4).
    cbn [re_parse]. rewrite E1, E2, E3, E4, Hc. now rewrite IH.
Qed.

Lemma flat_map_single (l : list str) : flat_map (fun s => [s]) l = l.
Proof. induction l; simpl; congruence. Qed.

Lemma flat_map_flat_map {X Y Z : Type} (f : Y -> list Z) (g : X -> list Y)
    (l : list X) :
  flat_map f (flat_map g l) = flat_map (fun x => flat_map f (g x)) l.
Proof.
  induction l as [|x l IH]; simpl; auto.
  now rewrite flat_map_app, IH.
Qed.

Lemma re_match_lits (q : str) (r : regex) (s : str) :
  re_match U (lits r q) s = flat_map (after_iprefix U q) (re_match U r s).
Proof.
  revert r. induction q as [|c q IH]; intros r.
  - simpl. unfold after_iprefix. simpl. now rewrite flat_map_single.
  - change (lits r (c :: q)) with (lits (RSeq r (RLit c)) q).
    rewrite IH. cbn [re_match]. rewrite flat_map_flat_map.
    apply flat_map_ext. intros [|d s'].
    + reflexivity.
    + unfold after_iprefix. cbn [re_match iprefix List.length skipn].
      destruct (ieq U c d); simpl; auto. now rewrite app_nil_r.
Qed.

Lemma re_search_lits (q s : str) :
  re_search U (lits REmpty q) s = icontains U q s.
Proof.
  assert (H : forall s, matches_here U (lits REmpty q) s = iprefix U q s).
  { intros s0. unfold matches_here. rewrite re_match_lits. simpl.
    unfold after_iprefix. now destruct (iprefix U q s0). }
  induction s as [|c s IH].
  - simpl. rewrite H. now destruct q.
  - cbn [re_search icontains]. now rewrite H, IH.
Qed.

Lemma str_contains_literal (q : str) :
  literal q = true ->
  exists found,
    str_contains U q = Ok found /\
    forall c, found c = match c with
                        | NA => false
                        | Str s => icontains U q s
                        end.
Proof.
  intros H. unfold str_contains, re_compile.
  rewrite (re_parse_literal q lv_start H). eexists. split; [reflexivity|].
  intros [|s]; auto. apply re_search_lits.
Qed.

(** For a time query without special characters, on a dataset with the
    columns, the availability query returns, and a hall is occupied exactly
    when a line with that hall has the day of the query (stripped, in title
    case) and a time that contains the stripped query, case ignored. *)
Theorem occupied_literal_query (df : frame) (day time : str) :
  has_Day df = true -> has_Time df = true -> has_Lecture_Hall df = true ->
  literal (strip time) = true ->
  exists free occ,
    get_free_halls U df day time = Ok (free, occ) /\
    forall h,
      In h occ <->
      exists r t,
        In r (rows df) /\ Lecture_Hall r = Str h /\
        Day r = Str (title U (strip day)) /\
        Time r = Str t /\ icontains U (strip time) t = true.
Proof.
  intros HD HT HH HL. unfold get_free_halls.
  destruct (empty df) eqn:E.
  - exists [], []. split; auto. intros h. split; [intros []|].
    intros (r & t & Hin & _). apply empty_rows in E. rewrite E in Hin.
    destruct Hin.
  - rewrite HD, HT, HH. cbn [need bind].
    destruct (str_contains_literal _ HL) as (found & -> & Hfound).
    cbn [bind]. eexists _, _. split; [reflexivity|].
    intros h. rewrite (in_sorted_set _ str_order), in_dropna, in_map_iff.
    split.
    + intros (r & Hh & Hr). apply filter_In in Hr as [Hr Hp].
      apply andb_prop in Hp as [Hd Ht]. rewrite Hfound in Ht.
      destruct (Day r) as [|d] eqn:Ed; [discriminate|].
      destruct (Time r) as [|t] eqn:Et; [discriminate|].
      simpl in Hd. apply str_eqb_eq in Hd. subst d.
      exists r, t. auto.
    + intros (r & t & Hr & Hh & Hd & Ht & Hc). exists r. split; auto.
      apply filter_In. split; auto. rewrite Hd, Ht, Hfound. simpl.
      now rewrite str_eqb_refl.
Qed.

End Literal.

Lemma occupied_literal_query_witness :
  literal (strip (lit " 11:00 ")) = true /\
  exists free occ,
    get_free_halls ascii_only (load_timetable ascii_only (Some csv_lab))
      (lit "monday") (lit " 11:00 ") = Ok (free, occ).
Proof.
  split; [reflexivity|].
  destruct (occupied_literal_query ascii_only
              (load_timetable ascii_only (Some csv_lab))
              (lit "monday") (lit " 11:00 ")
              eq_refl eq_refl eq_refl eq_refl) as (free & occ & H & _).
  exists free, occ. exact H.
Defined.

(** ** Missing days and times *)

Lemma in_unique (x : str) (l : list str) : In x (unique l) <-> In x l.
Proof.
  induction l as [|y l IH]; simpl; [reflexivity|].
  rewrite filter_In, IH, negb_true_iff, str_eqb_neq.
  destruct (list_eq_dec N.eq_dec y x) as [->|Hn]; [tauto|].
  split; [tauto|]. intros [H|H]; auto.
Qed.

Lemma has_key_group (k : key) (r : row) (rs : list row) :
  In r rs -> row_key r = Some k -> In r (group k rs).
Proof.
  intros Hin Hk. apply filter_In. split; auto.
  unfold has_key. rewrite Hk. apply key_eqb_refl.
Qed.

(** ** Conflict detection *)

Lemma filter_filter_imp {A : Type} (p q : A -> bool) (l : list A) :
  (forall x, In x l -> p x = true -> q x = true) ->
  filter p (filter q l) = filter p l.
Proof.
  induction l as [|x l IH]; intros H; simpl; auto.
  destruct (q x) eqn:Q; simpl.
  - destruct (p x); rewrite IH; auto; intros; apply H; simpl; auto.
  - destruct (p x) eqn:P.
    + rewrite H in Q; simpl; auto. discriminate.
    + apply IH. intros; apply H; simpl; auto.
Qed.

Lemma filter_map_comm {A B : Type} (f : A -> B) (p : B -> bool) (l : list A) :
  filter p (map f l) = map f (filter (fun x => p (f x)) l).
Proof.
  induction l as [|x l IH]; simpl; auto.
  destruct (p (f x)); simpl; now rewrite IH.
Qed.

Lemma in_keys_of (k : key) (rs : list row) :
  In k (keys_of rs) <-> exists r, In r rs /\ row_key r = Some k.
Proof.
  induction rs as [|r rs IH]; simpl.
  - split; [intros [] | intros [r [[] _]]].
  - destruct (row_key r) as [k'|] eqn:E; simpl; rewrite ?IH; split.
    + intros [->|[r' [H1 H2]]]; eauto.
    + intros [r' [[->|H1] H2]]; [left; congruence | eauto].
    + intros [r' [H1 H2]]; eauto.
    + intros [r' [[->|H1] H2]]; [congruence | eauto].
Qed.

Lemma in_group (k : key) (r : row) (rs : list row) :
  In r (group k rs) <-> In r rs /\ row_key r = Some k.
Proof.
  unfold group, has_key. rewrite filter_In.
  destruct (row_key r) as [k'|]; [rewrite key_eqb_eq|]; split;
    intros [H1 H2]; split; auto; congruence.
Qed.

Lemma in_group_keys (k : key) (rs : list row) :
  In k (group_keys rs) <-> group k rs <> [].
Proof.
  unfold group_keys. rewrite (in_sorted_set _ key_order), in_keys_of. split.
  - intros [r Hr] E. apply in_group in Hr. rewrite E in Hr. destruct Hr.
  - intros H. destruct (group k rs) as [|r l] eqn:E; [now destruct H|].
    exists r. apply in_group. rewrite E. now left.
Qed.

Lemma keys_of_filter (q : row -> bool) (p : key -> bool) (rs : list row) :
  (forall r k, row_key r = Some k -> q r = p k) ->
  keys_of (filter q rs) = filter p (keys_of rs).
Proof.
  intros H. induction rs as [|r rs IH]; simpl; auto.
  destruct (row_key r) as [k|] eqn:E.
  - rewrite (H _ _ E). simpl. destruct (p k); simpl; rewrite ?E, IH; auto.
  - destruct (q r); simpl; rewrite ?E; auto.
Qed.

Lemma crowded_in_group_keys (rs : list row) (k : key) :
  crowded rs k = true -> In k (group_keys rs).
Proof.
  unfold crowded. intros H. apply Nat.ltb_lt in H. apply in_group_keys.
  intros E. rewrite E in H. simpl in H. lia.
Qed.

(** The report in one expression: the groups with more than one line, in the
    order of their keys, each with the course codes of its lines in the order
    of the dataset. *)
Lemma detect_conflicts_closed (df : frame) :
  all_columns df ->
  detect_conflicts df =
  Ok (map (conflict_of (rows df))
        (filter (crowded (rows df)) (group_keys (rows df)))).
Proof.
  intros (HD & HT & HH & HC). unfold detect_conflicts.
  destruct (empty df) eqn:E.
  - apply empty_rows in E. now rewrite E.
  - rewrite HD, HT, HH, HC. cbn [need bind].
    unfold group_sizes. rewrite filter_map_comm. cbn [snd].
    fold (crowded (rows df)).
    set (cks := filter (crowded (rows df)) (group_keys (rows df))).
    destruct (map (fun k => (k, List.length (group k (rows df)))) cks)
      as [|kc l] eqn:M.
    + destruct cks; [reflexivity | discriminate M].
    + rewrite <- M. clear M kc l. rewrite map_map. cbn [fst]. rewrite map_id.
      f_equal.
      assert (G : group_keys (merge (rows df) cks) = cks).
      { unfold group_keys, merge.
        rewrite (keys_of_filter _ (fun k' => existsb (fun k => key_eqb k k') cks)).
        - rewrite (filter_sorted_set _ key_order). unfold cks.
          fold (group_keys (rows df)).
          apply filter_ext_in. intros k Hk.
          destruct (crowded (rows df) k) eqn:C.
          + apply existsb_exists. exists k. split; [|apply key_eqb_refl].
            apply filter_In. auto.
          + apply not_true_iff_false. intros H.
            apply existsb_exists in H as [k' [H1 H2]].
            apply key_eqb_eq in H2. subst k'.
            apply filter_In in H1 as [_ H1]. congruence.
        - intros r k Hr. unfold has_key. now rewrite Hr. }
      rewrite G. apply map_ext_in. intros [[d t] h] Hk.
      unfold conflict_of. f_equal. f_equal. unfold group, merge.
      apply filter_filter_imp. intros r _ Hr.
      apply existsb_exists. eauto.
Qed.

Lemma conflict_has_key_of (rs : list row) (k k' : key) :
  conflict_has_key k (conflict_of rs k') = key_eqb k' k.
Proof.
  destruct k as [[d t] h], k' as [[d' t'] h']. reflexivity.
Qed.

Lemma courses_reported_map (rs : list row) (ks : list key) (k : key) :
  courses_reported (map (conflict_of rs) ks) k =
  if existsb (key_eqb k) ks then map Course_Code (group k rs) else [].
Proof.
  unfold courses_reported. induction ks as [|k' ks IH]; simpl; auto.
  rewrite conflict_has_key_of.
  destruct (key_eqb k' k) eqn:E.
  - apply key_eqb_eq in E. subst k'. rewrite key_eqb_refl. simpl.
    now destruct k as [[d t] h].
  - destruct (key_eqb k k') eqn:F.
    + apply key_eqb_eq in F. subst k'. rewrite key_eqb_refl in E. discriminate.
    + simpl. exact IH.
Qed.

Lemma existsb_key (k : key) (ks : list key) :
  existsb (key_eqb k) ks = true <-> In k ks.
Proof.
  rewrite existsb_exists. split.
  - intros [k' [H E]]. apply key_eqb_eq in E. now subst.
  - intros H. exists k. split; auto. apply key_eqb_refl.
Qed.

(** The courses the report lists for a group: all of them when the group has
    more than one line, none otherwise. *)
Lemma courses_reported_closed (df : frame) (k : key) :
  all_columns df ->
  exists cs,
    detect_conflicts df = Ok cs /\
    courses_reported cs k =
    if crowded (rows df) k then map Course_Code (group k (rows df)) else [].
Proof.
  intros H. eexists. split; [apply detect_conflicts_closed; exact H|].
  rewrite courses_reported_map.
  destruct (crowded (rows df) k) eqn:C.
  - replace (existsb _ _) with true; auto. symmetry.
    apply existsb_key, filter_In. split; auto.
    now apply crowded_in_group_keys.
  - replace (existsb _ _) with false; auto. symmetry.
    apply not_true_iff_false. intros E. apply existsb_key, filter_In in E.
    destruct E. congruence.
Qed.

(** C4, as the code has it. On a dataset with the four columns,
    [detect_conflicts] reports exactly the (day, time, hall) groups with two
    or more lines, whatever their course codes; each entry lists the course
    code of every line of its group, in the order of the dataset. *)
Theorem conflicts_are_crowded_groups (df : frame) :
  all_columns df ->
  exists cs,
    detect_conflicts df = Ok cs /\
    (forall d t h,
        (exists c, In c cs /\ c_Day c = Str d /\ c_Time c = Str t /\
                   c_Lecture_Hall c = Str h) <->
        2 <= List.length (group (d, t, h) (rows df))) /\
    (forall c, In c cs ->
        exists d t h,
          c_Day c = Str d /\ c_Time c = Str t /\ c_Lecture_Hall c = Str h /\
          c_Course_Code c = map Course_Code (group (d, t, h) (rows df))).
Proof.
  intros H. eexists. split; [apply detect_conflicts_closed; exact H|]. split.
  - intros d t h. split.
    + intros (c & Hc & Hd & Ht & Hh). apply in_map_iff in Hc as [k [<- Hk]].
      apply filter_In in Hk as [_ Hk]. destruct k as [[d' t'] h'].
      simpl in Hd, Ht, Hh. injection Hd as ->. injection Ht as ->.
      injection Hh as ->. unfold crowded in Hk. apply Nat.ltb_lt in Hk. lia.
    + intros Hn. exists (conflict_of (rows df) (d, t, h)). split.
      * apply in_map, filter_In.
        assert (C : crowded (rows df) (d, t, h) = true)
          by (apply Nat.ltb_lt; lia).
        split; auto. now apply crowded_in_group_keys.
      * simpl. auto.
  - intros c Hc. apply in_map_iff in Hc as [[[d t] h] [<- Hk]].
    exists d, t, h. simpl. auto.
Qed.

Lemma conflicts_are_crowded_groups_witness :
  all_columns (load_timetable ascii_only (Some csv_same_course)) /\
  exists cs,
    detect_conflicts (load_timetable ascii_only (Some csv_same_course)) = Ok cs.
Proof.
  assert (H : all_columns (load_timetable ascii_only (Some csv_same_course)))
    by (repeat split).
  split; [exact H|].
  destruct (conflicts_are_crowded_groups
              (load_timetable ascii_only (Some csv_same_course)) H)
    as (cs & Hcs & _).
  exists cs. exact Hcs.
Defined.

(** Two lines with the same day, time, hall and course code are reported as a
    conflict, although only one distinct course is in the slot. *)
Lemma same_course_is_reported :
  detect_conflicts (load_timetable ascii_only (Some csv_same_course)) =
  Ok [{| c_Day := text "Monday"; c_Time := text "09:00-10:00";
         c_Lecture_Hall := text "AB";
         c_Course_Code := [text "CS101"; text "CS101"] |}].
Proof. reflexivity. Qed.

(** *** Lines without a hall *)

Lemma group_without_null_halls (k : key) (rs : list row) :
  group k (filter (fun r => negb (isna (Lecture_Hall r))) rs) = group k rs.
Proof.
  unfold group. apply filter_filter_imp. intros r _.
  unfold has_key, row_key.
  destruct (Day r), (Time r), (Lecture_Hall r); auto; discriminate.
Qed.

Lemma keys_of_without_null_halls (rs : list row) :
  keys_of (filter (fun r => negb (isna (Lecture_Hall r))) rs) = keys_of rs.
Proof.
  induction rs as [|r rs IH]; simpl; auto.
  destruct (Lecture_Hall r) as [|h] eqn:E; simpl.
  - unfold row_key. rewrite E. destruct (Day r), (Time r); auto.
  - now rewrite IH.
Qed.

(** C1, as the code has it. On a dataset with the four columns, the lines
    without a hall belong to no group: the report is the one of the dataset
    without them, and no entry of it has a missing hall. *)
Theorem null_halls_are_left_out (df : frame) :
  all_columns df ->
  detect_conflicts df = detect_conflicts (without_null_halls df) /\
  forall cs c, detect_conflicts df = Ok cs -> In c cs -> c_Lecture_Hall c <> NA.
Proof.
  intros H. split.
  - rewrite !detect_conflicts_closed by exact H.
    unfold without_null_halls, group_keys, crowded. cbn [rows].
    rewrite keys_of_without_null_halls. f_equal.
    rewrite (filter_ext
               (fun k => 1 <? List.length
                  (group k (filter (fun r => negb (isna (Lecture_Hall r)))
                              (rows df))))
               (fun k => 1 <? List.length (group k (rows df))))
      by (intros k; now rewrite group_without_null_halls).
    apply map_ext. intros [[d t] h]. unfold conflict_of.
    now rewrite group_without_null_halls.
  - intros cs c Hcs Hc. rewrite detect_conflicts_closed in Hcs by exact H.
    injection Hcs as <-. apply in_map_iff in Hc as [[[d t] h] [<- _]].
    discriminate.
Qed.

Lemma null_halls_are_left_out_witness :
  all_columns (load_timetable ascii_only (Some csv_null_halls)) /\
  detect_conflicts (load_timetable ascii_only (Some csv_null_halls)) =
  detect_conflicts
    (without_null_halls (load_timetable ascii_only (Some csv_null_halls))).
Proof.
  assert (H : all_columns (load_timetable ascii_only (Some csv_null_halls)))
    by (repeat split).
  split; [exact H|].
  exact (proj1 (null_halls_are_left_out
                  (load_timetable ascii_only (Some csv_null_halls)) H)).
Defined.

(** Two lines at the same day and time, both without a hall: nothing is
    reported. *)
Lemma null_hall_duplicates_not_reported :
  let df := load_timetable ascii_only (Some csv_null_halls) in
  map (fun r => (Day r, Time r, Lecture_Hall r)) (rows df) =
    [(text "Monday", text "09:00-10:00", NA);
     (text "Monday", text "09:00-10:00", NA)] /\
  detect_conflicts df = Ok [].
Proof. split; reflexivity. Qed.

(** *** One more line in a group *)

Lemma group_app (k : key) (rs rs' : list row) :
  group k (rs ++ rs') = group k rs ++ group k rs'.
Proof. apply filter_app. Qed.

Lemma group_one (k : key) (r : row) : row_key r = Some k -> group k [r] = [r].
Proof.
  intros H. unfold group, has_key. simpl. now rewrite H, key_eqb_refl.
Qed.

(** C7, as the code has it. On a dataset with the four columns, take a line
    with a day, a time and a hall (none missing) and append a line with the
    same three: the number of courses the report lists for that group grows
    by exactly the new line, from the size of the group (from nothing when the
    group had a single line and no entry) to the size plus one; when the
    group had a single line the report gains an entry for it. *)
Theorem duplicate_line_grows_group (df : frame) (r0 r : row) (k : key) :
  all_columns df ->
  In r0 (rows df) -> row_key r0 = Some k -> row_key r = Some k ->
  exists cs cs',
    detect_conflicts df = Ok cs /\
    detect_conflicts (append_row df r) = Ok cs' /\
    List.length (courses_reported cs k) < List.length (courses_reported cs' k) /\
    List.length (courses_reported cs' k) = S (List.length (group k (rows df))) /\
    (List.length (group k (rows df)) = 1 ->
     find (conflict_has_key k) cs = None /\
     exists c, find (conflict_has_key k) cs' = Some c /\
               c_Course_Code c = [Course_Code r0; Course_Code r]).
Proof.
  intros H Hin Hk0 Hk.
  assert (H' : all_columns (append_row df r)) by exact H.
  assert (Hn : 1 <= List.length (group k (rows df))).
  { assert (G : In r0 (group k (rows df))) by now apply has_key_group.
    destruct (group k (rows df)); [destruct G | simpl; lia]. }
  assert (G' : group k (rows (append_row df r)) = group k (rows df) ++ [r]).
  { cbn [append_row rows]. now rewrite group_app, group_one. }
  assert (C' : crowded (rows (append_row df r)) k = true).
  { unfold crowded. rewrite G', length_app. apply Nat.ltb_lt. simpl. lia. }
  exists (map (conflict_of (rows df))
            (filter (crowded (rows df)) (group_keys (rows df)))),
         (map (conflict_of (rows (append_row df r)))
            (filter (crowded (rows (append_row df r)))
                    (group_keys (rows (append_row df r))))).
  split; [now apply detect_conflicts_closed|].
  split; [now apply detect_conflicts_closed|].
  assert (E' : existsb (key_eqb k)
                 (filter (crowded (rows (append_row df r)))
                    (group_keys (rows (append_row df r)))) = true).
  { apply existsb_key, filter_In. split; auto.
    now apply crowded_in_group_keys. }
  rewrite !courses_reported_map, E', G', length_map, length_app.
  cbn [List.length].
  split; [|split].
  - destruct (existsb (key_eqb k)
                (filter (crowded (rows df)) (group_keys (rows df))));
      rewrite ?length_map; simpl; lia.
  - lia.
  - intros One.
    assert (C : crowded (rows df) k = false).
    { unfold crowded. rewrite One. reflexivity. }
    split.
    + destruct (find _ _) as [c|] eqn:F; auto.
      apply find_some in F as [F1 F2].
      apply in_map_iff in F1 as [k' [<- F1]].
      rewrite conflict_has_key_of in F2. apply key_eqb_eq in F2. subst k'.
      apply filter_In in F1 as [_ F1]. congruence.
    + exists (conflict_of (rows (append_row df r)) k). split.
      * clear - E' . induction (filter _ _) as [|k' ks IH];
          [discriminate E'|].
        simpl in *. rewrite conflict_has_key_of.
        destruct (key_eqb k' k) eqn:F.
        -- apply key_eqb_eq in F. now subst.
        -- apply IH. destruct (key_eqb k k') eqn:F'; auto.
           apply key_eqb_eq in F'. subst. rewrite key_eqb_refl in F.
           discriminate.
      * destruct k as [[d t] h]. cbn [conflict_of c_Course_Code].
        rewrite G'.
        assert (G : In r0 (group (d, t, h) (rows df)))
          by now apply has_key_group.
        destruct (group (d, t, h) (rows df)) as [|x [|y l]];
          simpl in One; try discriminate.
        destruct G as [->|[]]. reflexivity.
Qed.

Lemma duplicate_line_grows_group_witness :
  let df := load_timetable ascii_only (Some csv_one_line) in
  let r := line (text "Monday") (text "09:00-10:00") (text "LT1") (text "CS102") in
  all_columns df /\ In r (rows (append_row df r)) /\
  exists cs', detect_conflicts (append_row df r) = Ok cs'.
Proof.
  intros df r.
  assert (H : all_columns df) by (repeat split).
  split; [exact H|]. split; [right; left; reflexivity|].
  destruct (duplicate_line_grows_group df
              (line (text "Monday") (text "09:00-10:00") (text "LT1") (text "CS101"))
              r (lit "Monday", lit "09:00-10:00", lit "LT1")
              H (or_introl eq_refl) eq_refl eq_refl)
    as (cs & cs' & _ & H' & _).
  exists cs'. exact H'.
Defined.

(** A line without a hall, then a second line with the same day, time and
    (missing) hall: the report stays empty. *)
Lemma null_hall_duplicate_adds_nothing :
  let df := load_timetable ascii_only (Some csv_one_null_hall) in
  let r := line (text "Monday") (text "09:00-10:00") NA (text "CS102") in
  map (fun r => (Day r, Time r, Lecture_Hall r)) (rows df) =
    [(Day r, Time r, Lecture_Hall r)] /\
  detect_conflicts df = Ok [] /\
  detect_conflicts (append_row df r) = Ok [].
Proof. repeat split. Qed.

(** ** Usage counts *)

Lemma in_insert_desc (before : str * nat -> str * nat -> bool)
    (x y : str * nat) (l : list (str * nat)) :
  In x (insert_desc before y l) <-> x = y \/ In x l.
Proof.
  induction l as [|z l IH]; simpl.
  - intuition.
  - destruct ((snd z <? snd y) || ((snd z =? snd y) && before y z)); simpl;
      [|rewrite IH]; intuition.
Qed.



Lemma in_sort_desc (before : str * nat -> str * nat -> bool)
    (x : str * nat) (l : list (str * nat)) :
  In x (fold_right (insert_desc before) [] l) <-> In x l.
Proof.
  induction l as [|y l IH]; simpl; [reflexivity|].
  rewrite in_insert_desc, IH. intuition.
Qed.

Lemma combine_fst_snd {A B : Type} (l : list (A * B)) :
  combine (map fst l) (map snd l) = l.
Proof.
  induction l as [|[a b] l IH]; simpl; congruence.
Qed.

Lemma value_counts_counts (U : pylib) (col : list cell) (x : str * nat) :
  In x (value_counts U col) ->
  In (fst x) (dropna col) /\ snd x = count (fst x) (dropna col).
Proof.
  unfold value_counts. rewrite in_sort_desc, in_map_iff.
  intros [h [<- Hh]]. apply (proj1 (in_unique _ _)) in Hh.
  split; [exact Hh | reflexivity].
Qed.





(** ** Missing days and times, loaded *)




Section MissingCells.
Variable U : pylib.
Hypothesis before3 : nan_as_text U = true.
Variable csv : frame.



End MissingCells.




(* ================================================================= *)
(** * Further properties *)

(** ** File names *)

Lemma last_dot_None (s : str) : last_dot s = None <-> ~ In 46%N s.
Proof.
  induction s as [|c s IH]; simpl.
  - tauto.
  - destruct (last_dot s) as [[a b]|].
    + split; [discriminate|]. intros H. exfalso.
      assert (K : ~ In 46%N s) by tauto. apply IH in K. discriminate.
    + destruct (N.eqb_spec c 46) as [->|Hc].
      * split; [discriminate | tauto].
      * split; auto. intros _ [H|H]; [congruence|].
        now apply (proj1 IH).
Qed.

Lemma last_dot_Some (s a b : str) :
  last_dot s = Some (a, b) <-> s = a ++ 46%N :: b /\ ~ In 46%N b.
Proof.
  revert a. induction s as [|c s IH]; intros a; simpl.
  - split; [discriminate|]. intros [H _]. now destruct a.
  - destruct (last_dot s) as [[a' b']|] eqn:E.
    + split.
      * intros H. injection H as <- <-.
        destruct (proj1 (IH a') eq_refl) as [-> Hb]. auto.
      * intros [H Hb]. destruct a as [|x a]; simpl in H;
          injection H; intros; subst.
        -- apply last_dot_None in Hb. congruence.
        -- assert (K : Some (a', b') = Some (a, b))
             by (apply IH; auto).
           now injection K as -> ->.
    + pose proof (proj1 (last_dot_None s) E) as Hs.
      destruct (N.eqb_spec c 46) as [Hc|Hc].
      * subst c. split.
        -- intros H. injection H as <- <-. auto.
        -- intros [H Hb]. destruct a as [|x a]; simpl in H;
             injection H; intros; subst; auto.
           exfalso. apply Hs. apply in_or_app. right. now left.
      * split; [discriminate|]. intros [H Hb].
        destruct a as [|x a]; simpl in H; injection H; intros; subst.
        -- congruence.
        -- exfalso. apply Hs. apply in_or_app. right. now left.
Qed.

Lemma contains_dot (s : str) : contains (lit ".") s = true <-> In 46%N s.
Proof.
  change (lit ".") with [46%N].
  induction s as [|c s IH].
  - simpl. split; [discriminate | tauto].
  - cbn [contains is_prefix In].
    rewrite andb_true_r, orb_true_iff, IH, N.eqb_eq.
    split; intros [H|H]; auto.
Qed.

Lemma allowed_file_split (U : pylib) (stem ext : str) :
  ~ In 46%N ext ->
  allowed_file U (stem ++ 46%N :: ext) = str_eqb (lower U ext) (lit "csv").
Proof.
  intros Hext. unfold allowed_file, rsplit_dot.
  assert (E : last_dot (stem ++ 46%N :: ext) = Some (stem, ext))
    by (apply last_dot_Some; auto).
  rewrite E. cbn [nth_error ALLOWED_EXTENSIONS existsb].
  rewrite orb_false_r.
  replace (contains (lit ".") (stem ++ 46%N :: ext)) with true; auto.
  symmetry. apply contains_dot, in_or_app. right. now left.
Qed.

Lemma allowed_file_no_dot (U : pylib) (filename : str) :
  ~ In 46%N filename -> allowed_file U filename = false.
Proof.
  intros H. unfold allowed_file.
  replace (contains (lit ".") filename) with false; auto.
  symmetry. apply not_true_iff_false. now rewrite contains_dot.
Qed.

(** X1. A file name is accepted exactly when the text after its last dot is
    "csv" once put in lower case; a name without a dot is refused. *)
Theorem allowed_file_iff (U : pylib) (filename : str) :
  allowed_file U filename = true <->
  exists stem ext,
    filename = stem ++ 46%N :: ext /\ ~ In 46%N ext /\
    lower U ext = lit "csv".
Proof.
  split.
  - intros H. destruct (last_dot filename) as [[a b]|] eqn:E.
    + apply last_dot_Some in E as [-> Hb]. exists a, b.
      rewrite allowed_file_split in H by exact Hb.
      apply str_eqb_eq in H. auto.
    + apply last_dot_None in E. rewrite allowed_file_no_dot in H by exact E.
      discriminate H.
  - intros (stem & ext & -> & Hext & Hl).
    rewrite allowed_file_split by exact Hext. now apply str_eqb_eq.
Qed.

Lemma lower_from_ascii (U : pylib) (s before : str) :
  ascii_text s = true -> lower_from U before s = map ascii_tolower s.
Proof.
  revert before. induction s as [|c s IH]; intros before H; simpl; auto.
  simpl in H. apply andb_prop in H as [Hc Hs].
  rewrite IH by exact Hs. unfold lower_at, to_lower_full. rewrite Hc.
  destruct (N.eqb_spec c 931) as [->|_]; [discriminate Hc | reflexivity].
Qed.

(** X2. For an extension of ASCII characters the test ignores case and the
    rest of the name: [stem.ext] is accepted exactly when [ext], with its
    capital letters made small, is "csv". *)
Theorem allowed_file_ascii (U : pylib) (stem ext : str) :
  ascii_text ext = true -> ~ In 46%N ext ->
  allowed_file U (stem ++ 46%N :: ext) =
  str_eqb (map ascii_tolower ext) (lit "csv").
Proof.
  intros Ha Hd. rewrite allowed_file_split by exact Hd.
  unfold lower. now rewrite lower_from_ascii.
Qed.

Lemma allowed_file_ascii_witness :
  ascii_text (lit "CsV") = true /\ ~ In 46%N (lit "CsV") /\
  allowed_file ascii_only (lit "time.table.CsV") = true.
Proof.
  assert (Hd : ~ In 46%N (lit "CsV")).
  { simpl. intros [H|[H|[H|[]]]]; discriminate H. }
  split; [reflexivity|]. split; [exact Hd|].
  exact (allowed_file_ascii ascii_only (lit "time.table") (lit "CsV")
           eq_refl Hd).
Defined.

(** ** Counting halls *)

Lemma NoDup_unique (l : list str) : NoDup (unique l).
Proof.
  induction l as [|x l IH]; simpl; constructor.
  - rewrite filter_In, str_eqb_refl. intros [_ H]. discriminate H.
  - now apply NoDup_filter.
Qed.

Lemma count_cons (h x : str) (l : list str) :
  count h (x :: l) = (if str_eqb h x then 1 else 0) + count h l.
Proof.
  unfold count. simpl. destruct (str_eqb h x); reflexivity.
Qed.

Lemma count_In (h : str) (l : list str) : In h l <-> 1 <= count h l.
Proof.
  induction l as [|x l IH].
  - simpl. unfold count. simpl. split; [tauto | lia].
  - rewrite count_cons. simpl. destruct (str_eqb h x) eqn:E.
    + apply str_eqb_eq in E. subst. split; [lia | auto].
    + apply str_eqb_neq in E. rewrite IH. simpl. split.
      * intros [H|H]; [congruence | auto].
      * auto.
Qed.

Lemma sum_indicator (x : str) (u : list str) :
  NoDup u ->
  list_sum (map (fun h => if str_eqb h x then 1 else 0) u) =
  if mem x u then 1 else 0.
Proof.
  induction 1 as [|y u Hy Hu IH]; simpl; auto.
  rewrite IH. destruct (str_eqb y x) eqn:E.
  - apply str_eqb_eq in E. subst y. rewrite str_eqb_refl. simpl.
    destruct (mem x u) eqn:M; auto. apply mem_In in M. tauto.
  - destruct (str_eqb x y) eqn:F; auto.
    apply str_eqb_eq in F. subst. rewrite str_eqb_refl in E. discriminate.
Qed.

Lemma list_sum_map_add {A : Type} (f g : A -> nat) (l : list A) :
  list_sum (map (fun x => f x + g x) l) =
  list_sum (map f l) + list_sum (map g l).
Proof.
  induction l as [|x l IH]; simpl; auto. rewrite IH. lia.
Qed.

(** The counts of distinct values add up to the values they are among. *)
Lemma sum_counts (u l : list str) :
  NoDup u ->
  list_sum (map (fun h => count h l) u) =
  List.length (filter (fun y => mem y u) l).
Proof.
  intros Hu. induction l as [|x l IH].
  - simpl. unfold count. simpl. induction u; simpl; auto.
    apply IHu. now inversion Hu.
  - rewrite (map_ext _ (fun h => (if str_eqb h x then 1 else 0) + count h l))
      by (intros; apply count_cons).
    rewrite list_sum_map_add, sum_indicator, IH by exact Hu.
    simpl. destruct (mem x u); reflexivity.
Qed.

Lemma sum_counts_unique (l : list str) :
  list_sum (map (fun h => count h l) (unique l)) = List.length l.
Proof.
  rewrite sum_counts by apply NoDup_unique. f_equal.
  rewrite <- (filter_ext_in (fun _ => true)).
  - induction l; simpl; congruence.
  - intros y Hy. symmetry. now apply mem_In, in_unique.
Qed.

Lemma insert_desc_perm (before : str * nat -> str * nat -> bool)
    (y : str * nat) (l : list (str * nat)) :
  Permutation (insert_desc before y l) (y :: l).
Proof.
  induction l as [|z l IH]; simpl; auto.
  destruct ((snd z <? snd y) || ((snd z =? snd y) && before y z)); auto.
  rewrite IH. apply perm_swap.
Qed.

Lemma sort_desc_perm (before : str * nat -> str * nat -> bool)
    (l : list (str * nat)) :
  Permutation (fold_right (insert_desc before) [] l) l.
Proof.
  induction l as [|y l IH]; simpl; auto.
  rewrite insert_desc_perm. now constructor.
Qed.

Lemma list_sum_perm (l l' : list nat) :
  Permutation l l' -> list_sum l = list_sum l'.
Proof.
  induction 1; simpl; lia.
Qed.

Lemma value_counts_perm (U : pylib) (col : list cell) :
  Permutation (value_counts U col)
    (map (fun h => (h, count h (dropna col))) (unique (dropna col))).
Proof. apply sort_desc_perm. Qed.

Lemma value_counts_labels (U : pylib) (col : list cell) :
  Permutation (map fst (value_counts U col)) (unique (dropna col)).
Proof.
  rewrite value_counts_perm, map_map. cbn [fst]. now rewrite map_id.
Qed.

Lemma value_counts_sum (U : pylib) (col : list cell) :
  list_sum (map snd (value_counts U col)) = List.length (dropna col).
Proof.
  rewrite (list_sum_perm _ _ (Permutation_map snd (value_counts_perm U col))).
  rewrite map_map. cbn [snd]. apply sum_counts_unique.
Qed.

(** X7. The values of [chart_data] add up to the number of lines that have a
    hall; every value is at least one, no hall is listed twice, and there are
    as many labels as values and as distinct halls. *)
Theorem chart_data_total (U : pylib) (csv : option frame)
    (labels : list str) (values : list nat) :
  chart_data U csv = (labels, values) ->
  list_sum values = List.length (usage_halls (load_timetable U csv)) /\
  Forall (fun n => 1 <= n) values /\
  NoDup labels /\
  List.length labels = List.length values /\
  List.length labels =
    List.length (unique (usage_halls (load_timetable U csv))).
Proof.
  unfold chart_data, usage_halls.
  set (df := load_timetable U csv).
  destruct (empty df) eqn:E; cbn [orb].
  - intros H. injection H as <- <-. apply empty_rows in E. rewrite E.
    destruct (has_Lecture_Hall df); simpl; repeat split; constructor.
  - destruct (has_Lecture_Hall df); cbn [negb].
    + intros H. injection H as <- <-.
      set (col := map Lecture_Hall (rows df)).
      split; [apply value_counts_sum|]. split; [|split].
      * apply Forall_forall. intros n Hn.
        apply in_map_iff in Hn as [x [<- Hx]].
        apply value_counts_counts in Hx as [Hx ->]. now apply count_In.
      * eapply Permutation_NoDup; [symmetry; apply value_counts_labels|].
        apply NoDup_unique.
      * split; [now rewrite !length_map|].
        apply Permutation_length, value_counts_labels.
    + intros H. injection H as <- <-. simpl. repeat split; constructor.
Qed.

Lemma chart_data_total_witness :
  chart_data ascii_only (Some csv_lab) = ([lit "LT 1"; lit "LT 2"], [1; 1]) /\
  list_sum [1; 1] =
  List.length (usage_halls (load_timetable ascii_only (Some csv_lab))).
Proof.
  split; [reflexivity|].
  exact (proj1 (chart_data_total ascii_only (Some csv_lab)
                  [lit "LT 1"; lit "LT 2"] [1; 1] eq_refl)).
Defined.

(** ** The statistics of the index page *)

Lemma max_ge {A : Type} (f : A -> nat) (l : list A) (x : A) :
  In x l -> f x <= fold_right Nat.max 0 (map f l).
Proof.
  induction l as [|y l IH]; simpl; [tauto|].
  intros [->|H]; [lia|]. specialize (IH H). lia.
Qed.

Lemma max_attained {A : Type} (f : A -> nat) (l : list A) :
  l <> [] -> exists x, In x l /\ f x = fold_right Nat.max 0 (map f l).
Proof.
  induction l as [|y l IH]; [congruence|]. intros _.
  destruct l as [|z l].
  - exists y. simpl. split; auto. lia.
  - destruct IH as (x & Hx & Ex); [discriminate|].
    destruct (Nat.le_ge_cases (f y) (fold_right Nat.max 0 (map f (z :: l))))
      as [L|L].
    + exists x. split; [now right|]. change (map f (y :: z :: l)) with
        (f y :: map f (z :: l)). cbn [fold_right]. lia.
    + exists y. split; [now left|]. change (map f (y :: z :: l)) with
        (f y :: map f (z :: l)). cbn [fold_right]. lia.
Qed.

Lemma in_mode (col : list cell) (m : str) :
  In m (mode col) <->
  In m (dropna col) /\
  forall h, count h (dropna col) <= count m (dropna col).
Proof.
  unfold mode. set (xs := dropna col).
  rewrite (in_sorted_set _ str_order), filter_In, Nat.eqb_eq. split.
  - intros [Hm E]. split; auto. intros h. rewrite E.
    destruct (count h xs) as [|n] eqn:C; [lia|].
    rewrite <- C. apply (max_ge (fun h => count h xs)).
    apply count_In. lia.
  - intros [Hm Hmax]. split; auto. apply Nat.le_antisymm.
    + now apply (max_ge (fun h => count h xs)).
    + destruct (max_attained (fun h => count h xs) xs) as (x & _ & <-).
      * intros E. rewrite E in Hm. destruct Hm.
      * apply Hmax.
Qed.

Lemma mode_nonempty (col : list cell) : dropna col <> [] -> mode col <> [].
Proof.
  intros H. destruct (max_attained (fun h => count h (dropna col)) _ H)
    as (x & Hx & Ex).
  assert (K : In x (mode col)).
  { apply in_mode. split; auto. intros h.
    destruct (count h (dropna col)) as [|n] eqn:C; [lia|].
    rewrite <- C, Ex. apply (max_ge (fun h => count h (dropna col))).
    apply count_In. lia. }
  intros E. rewrite E in K. destruct K.
Qed.

Lemma mode_ascending (col : list cell) : ascending str_compare (mode col).
Proof. apply (sorted_set_ascending _ str_order). Qed.

Lemma idxmin_spec (l : list (str * nat)) :
  l <> [] ->
  exists x, idxmin l = Some x /\ In x l /\ forall y, In y l -> snd x <= snd y.
Proof.
  induction l as [|z l IH]; [congruence|]. intros _. simpl.
  destruct l as [|w l].
  - exists z. simpl. repeat split; auto. intros y [<-|[]]. lia.
  - destruct IH as (x & -> & Hx & Hmin); [discriminate|].
    destruct (Nat.ltb_spec (snd x) (snd z)) as [L|L].
    + exists x. split; auto. split; [now right|].
      intros y [<-|Hy]; [lia | auto].
    + exists z. split; auto. split; [now left|].
      intros y [<-|Hy]; [lia|]. specialize (Hmin _ Hy). lia.
Qed.

Lemma unique_nil (l : list str) : unique l = [] <-> l = [].
Proof.
  destruct l; simpl; split; congruence.
Qed.

Lemma value_counts_nil (U : pylib) (col : list cell) :
  value_counts U col = [] <-> dropna col = [].
Proof.
  split; intros H.
  - apply unique_nil. apply Permutation_nil.
    rewrite <- (value_counts_labels U col), H. reflexivity.
  - unfold value_counts. now rewrite H.
Qed.

(** X8. The statistics never raise, and what they are. With halls in the
    data: the number of lines, the number of distinct halls, for [most_used]
    the first in name order of the halls with the most lines, and for
    [least_used] a hall that no hall has fewer lines than. Without a hall
    (no column, or no value): no hall counted and "N/A" twice. *)
Theorem index_stats_meaning (U : pylib) (df : frame) :
  let halls := usage_halls df in
  exists s,
    index_stats U df = Ok s /\
    total_courses s = List.length (rows df) /\
    total_halls s = List.length (unique halls) /\
    (halls = [] -> most_used s = lit "N/A" /\ least_used s = lit "N/A") /\
    (halls <> [] ->
     In (most_used s) halls /\
     (forall h, count h halls <= count (most_used s) halls) /\
     (forall h, In h halls -> count h halls = count (most_used s) halls ->
                str_compare h (most_used s) <> Lt) /\
     In (least_used s) halls /\
     (forall h, In h halls -> count (least_used s) halls <= count h halls)).
Proof.
  unfold usage_halls, index_stats, nunique.
  destruct (has_Lecture_Hall df).
  - set (col := map Lecture_Hall (rows df)).
    destruct (dropna col) as [|x xs] eqn:E.
    + cbn. eexists. split; [reflexivity|].
      repeat split; auto; try (intros H; now destruct H).
    + assert (Hne : dropna col <> []) by (rewrite E; discriminate).
      rewrite <- E.
      assert (Hpos : (0 <? List.length (unique (dropna col))) = true).
      { apply Nat.ltb_lt. destruct (unique (dropna col)) eqn:F.
        - apply (proj1 (unique_nil _)) in F. congruence.
        - simpl. lia. }
      rewrite Hpos.
      pose proof (mode_nonempty col Hne) as Hm.
      pose proof (mode_ascending col) as Hasc.
      destruct (mode col) as [|m ms] eqn:M; [congruence|].
      destruct (idxmin_spec (value_counts U col)) as (y & -> & Hy & Hmin).
      { intros F. apply (proj1 (value_counts_nil U _)) in F. congruence. }
      cbn [bind]. eexists. split; [reflexivity|]. cbn.
      split; [reflexivity|]. split; [reflexivity|].
      split; [intros F; congruence|]. intros _.
      assert (Hin : In m (mode col)) by (rewrite M; now left).
      apply in_mode in Hin as [Hin Hmax].
      split; [exact Hin|]. split; [exact Hmax|]. split; [|split].
      * intros h Hh Hc.
        assert (K : In h (mode col)).
        { apply in_mode. split; auto. intros h'. rewrite Hc. apply Hmax. }
        rewrite M in K. destruct K as [<-|K].
        -- rewrite str_compare_refl. discriminate.
        -- inversion Hasc as [|? ? _ Hall]; subst.
           rewrite Forall_forall in Hall. specialize (Hall _ K).
           intros L. pose proof (str_compare_trans _ _ _ L Hall) as T.
           rewrite str_compare_refl in T. discriminate.
      * apply value_counts_counts in Hy. tauto.
      * intros h Hh.
        assert (K : In (h, count h (dropna col)) (value_counts U col)).
        { unfold value_counts. apply in_sort_desc, in_map_iff.
          exists h. split; auto. now apply in_unique. }
        specialize (Hmin _ K). apply value_counts_counts in Hy as [_ Hy].
        cbn [snd] in Hmin. lia.
  - cbn. eexists. split; [reflexivity|].
    repeat split; auto; try (intros H; now destruct H).
Qed.

Lemma index_stats_returns (U : pylib) (df : frame) :
  exists s,
    index_stats U df = Ok s /\
    total_halls s = List.length (unique (usage_halls df)).
Proof.
  unfold usage_halls, index_stats, nunique.
  destruct (has_Lecture_Hall df); [|cbn; eauto].
  set (col := map Lecture_Hall (rows df)).
  destruct (0 <? List.length (unique (dropna col))) eqn:P; [|cbn; eauto].
  assert (Hne : dropna col <> []).
  { intros E. rewrite E in P. discriminate P. }
  pose proof (mode_nonempty col Hne) as Hm.
  destruct (mode col) as [|m ms]; [congruence|].
  destruct (idxmin_spec (value_counts U col)) as (y & -> & _).
  { intros F. apply (proj1 (value_counts_nil U _)) in F. congruence. }
  cbn. eauto.
Qed.

Lemma load_timetable_from_cases (U : pylib) (stored : option csv_file) :
  (stored = Some Unreadable /\
   load_timetable_from U stored = Raise CsvError) \/
  (stored <> Some Unreadable /\
   exists csv, load_timetable_from U stored = Ok (load_timetable U csv)).
Proof.
  destruct stored as [[|csv]|].
  - left. split; reflexivity.
  - right. split; [discriminate|]. exists (Some csv). reflexivity.
  - right. split; [discriminate|]. exists None. reflexivity.
Qed.

(** X9. The index page and the file on disk. When [pd.read_csv] cannot read
    the timetable on disk, every request to the index page raises. In every
    other case a GET does not raise: it shows the lists of days and times and
    the statistics of the loaded timetable, and empty results. A POST with no
    timetable on disk does not raise either. *)
Theorem index_get_renders (U : pylib) (st : site) :
  (timetable_csv st = Some Unreadable ->
   forall req, index U st req = Raise CsvError) /\
  (timetable_csv st <> Some Unreadable ->
   exists df p,
     load_timetable_from U (timetable_csv st) = Ok df /\
     index U st GET = Ok p /\
     p_free_halls p = [] /\ p_occupied_halls p = [] /\ p_conflicts p = [] /\
     p_day_options p = day_options df /\
     p_time_options p = time_options df /\
     index_stats U df = Ok (p_stats p)) /\
  (timetable_csv st = None ->
   forall d t, exists p,
     index U st (POST d t) = Ok p /\
     p_free_halls p = [] /\ p_occupied_halls p = [] /\ p_conflicts p = [] /\
     p_day_options p = [] /\ p_time_options p = []).
Proof.
  split; [|split].
  - intros E req. unfold index. rewrite E. reflexivity.
  - intros N. unfold index.
    destruct (load_timetable_from_cases U (timetable_csv st))
      as [[E _]|(_ & csv & ->)]; [contradiction|].
    destruct (index_stats_returns U (load_timetable U csv)) as (s & Hs & _).
    cbn [bind]. rewrite Hs. cbn [bind]. do 2 eexists.
    split; [reflexivity|]. split; [reflexivity|]. cbn. repeat split.
    exact Hs.
  - intros E d t. unfold index. rewrite E. cbn. eexists. repeat split.
Qed.

Lemma index_get_renders_witness :
  timetable_csv {| timetable_csv := Some Unreadable; hall_usage_png := None |}
  = Some Unreadable /\
  index ascii_only
    {| timetable_csv := Some Unreadable; hall_usage_png := None |} GET
  = Raise CsvError.
Proof.
  split; [reflexivity|].
  exact (proj1 (index_get_renders ascii_only
                  {| timetable_csv := Some Unreadable;
                     hall_usage_png := None |}) eq_refl GET).
Defined.

(** ** The order and the size of the results *)

Lemma filter_partition_length {A : Type} (p : A -> bool) (l : list A) :
  List.length (filter p l) + List.length (filter (fun x => negb (p x)) l) =
  List.length l.
Proof.
  induction l as [|x l IH]; simpl; auto. destruct (p x); simpl; lia.
Qed.

Lemma ascending_filter {A : Type} (cmp : A -> A -> comparison)
    (p : A -> bool) (l : list A) :
  ascending cmp l -> ascending cmp (filter p l).
Proof.
  unfold ascending. induction 1 as [|x l Hl IH Hx]; simpl.
  - constructor.
  - destruct (p x); auto. constructor; auto.
    rewrite Forall_forall in *. intros y Hy. apply Hx.
    apply filter_In in Hy. tauto.
Qed.

Lemma same_members_length (l l' : list str) :
  NoDup l -> NoDup l' -> (forall x, In x l <-> In x l') ->
  List.length l = List.length l'.
Proof.
  intros H H' E. apply Permutation_length. now apply NoDup_Permutation.
Qed.

Lemma free_occupied_members (U : pylib) (df : frame) (day time : str)
    (free occ : list str) :
  get_free_halls U df day time = Ok (free, occ) ->
  (forall h, In h free -> In h occ -> False) /\
  (forall h, In h free \/ In h occ <->
             exists r, In r (rows df) /\ Lecture_Hall r = Str h) /\
  NoDup free /\ NoDup occ.
Proof.
  intros H. apply get_free_halls_Ok in H as [(Hr & -> & ->)|(found & _ & Ho & Hf)].
  - split; [intros h []|]. split; [|split; apply NoDup_nil].
    intros h. split; [intros [[]|[]]|].
    intros [r [Hin _]]. rewrite Hr in Hin. destruct Hin.
  - assert (Hfree : forall h, In h free <-> In h (all_halls df) /\ ~ In h occ).
    { intros h. rewrite Hf, (in_sorted_set _ str_order), filter_In.
      rewrite negb_true_iff, <- not_true_iff_false, mem_In. reflexivity. }
    assert (Hocc : forall h, In h occ -> In h (all_halls df)).
    { intros h. rewrite Ho, (in_sorted_set _ str_order), in_dropna, in_map_iff.
      intros [r [H1 H2]]. apply filter_In in H2 as [H2 _].
      apply in_all_halls. eauto. }
    split; [|split; [|split]].
    + intros h H1 H2. apply Hfree in H1. tauto.
    + intros h. rewrite <- in_all_halls. split.
      * intros [H|H]; [apply Hfree in H; tauto | auto].
      * intros H. destruct (mem h occ) eqn:M.
        -- right. now apply mem_In.
        -- left. apply Hfree. split; auto. rewrite <- mem_In. congruence.
    + rewrite Hf. apply (sorted_set_NoDup _ str_order).
    + rewrite Ho. apply (sorted_set_NoDup _ str_order).
Qed.

(** X10. The free and the occupied halls come in ascending order of their
    names, and together they are as many as the halls the index page counts,
    for every query that returns. *)
Theorem free_occupied_sorted_and_counted (U : pylib) (df : frame)
    (day time : str) (free occ : list str) (s : stats) :
  get_free_halls U df day time = Ok (free, occ) ->
  index_stats U df = Ok s ->
  ascending str_compare free /\ ascending str_compare occ /\
  List.length free + List.length occ = total_halls s.
Proof.
  intros H Hs.
  destruct (index_stats_returns U df) as (s' & Hs' & Ht).
  rewrite Hs in Hs'. injection Hs' as <-. rewrite Ht. clear Ht Hs.
  pose proof (free_occupied_members U df day time free occ H)
    as (Hdis & Hcov & Hnf & Hno).
  assert (Hh : rows df = [] \/ has_Lecture_Hall df = true).
  { unfold get_free_halls in H. destruct (empty df) eqn:E.
    - left. now apply empty_rows.
    - right. destruct (has_Day df); [|discriminate].
      destruct (has_Time df); [|discriminate]. cbn [need bind] in H.
      destruct (str_contains U (strip time)); [|discriminate].
      cbn [bind] in H. destruct (has_Lecture_Hall df); [auto | discriminate]. }
  apply get_free_halls_Ok in H as [(Hr & -> & ->)|(found & _ & Ho & Hf)].
  - split; [constructor|]. split; [constructor|].
    unfold usage_halls. rewrite Hr. now destruct (has_Lecture_Hall df).
  - split; [rewrite Hf; apply (sorted_set_ascending _ str_order)|].
    split; [rewrite Ho; apply (sorted_set_ascending _ str_order)|].
    assert (Hu : forall h, In h (usage_halls df) <->
                           exists r, In r (rows df) /\ Lecture_Hall r = Str h).
    { intros h. unfold usage_halls. destruct Hh as [Hr|HH].
      - rewrite Hr. destruct (has_Lecture_Hall df); simpl; split;
          try tauto; intros [r [[] _]].
      - rewrite HH, in_dropna, in_map_iff. split; intros [r [H1 H2]];
          exists r; auto. }
    rewrite <- (filter_partition_length (fun h => mem h occ)
                  (unique (usage_halls df))).
    rewrite Nat.add_comm. f_equal.
    + apply same_members_length; auto.
      * apply NoDup_filter, NoDup_unique.
      * intros h. rewrite filter_In, in_unique, Hu, mem_In, <- Hcov. tauto.
    + apply same_members_length; auto.
      * apply NoDup_filter, NoDup_unique.
      * intros h. rewrite filter_In, in_unique, Hu, negb_true_iff,
          <- not_true_iff_false, mem_In, <- Hcov.
        split; [|tauto]. intros Hfree. split; auto.
        intros Hocc. exact (Hdis h Hfree Hocc).
Qed.

Lemma free_occupied_sorted_and_counted_witness :
  let df := load_timetable ascii_only (Some csv_lab) in
  get_free_halls ascii_only df (lit "monday") (lit "11:") =
    Ok ([lit "LT 1"], [lit "LT 2"]) /\
  ascending str_compare [lit "LT 1"].
Proof.
  split; [reflexivity|].
  exact (proj1 (free_occupied_sorted_and_counted ascii_only
                  (load_timetable ascii_only (Some csv_lab))
                  (lit "monday") (lit "11:") [lit "LT 1"] [lit "LT 2"]
                  _ eq_refl eq_refl)).
Defined.

(** ** The shape of the conflict report *)

Lemma conflict_slot_of (rs : list row) (k : key) :
  conflict_slot (conflict_of rs k) = slot_of_key k.
Proof. now destruct k as [[d t] h]. Qed.

Lemma courses_of (rs : list row) (k : key) :
  c_Course_Code (conflict_of rs k) = map Course_Code (group k rs).
Proof. now destruct k as [[d t] h]. Qed.

(** X11. The entries of the report come in ascending order of (day, time,
    hall), one entry for a slot, each with at least two courses. *)
Theorem conflicts_sorted (df : frame) :
  all_columns df ->
  exists cs ks,
    detect_conflicts df = Ok cs /\
    map conflict_slot cs = map slot_of_key ks /\
    ascending key_compare ks /\
    Forall (fun c => 2 <= List.length (c_Course_Code c)) cs.
Proof.
  intros H. eexists. exists (filter (crowded (rows df)) (group_keys (rows df))).
  split; [now apply detect_conflicts_closed|]. split; [|split].
  - rewrite map_map. apply map_ext. intros k. apply conflict_slot_of.
  - apply ascending_filter. apply (sorted_set_ascending _ key_order).
  - apply Forall_forall. intros c Hc. apply in_map_iff in Hc as [k [<- Hk]].
    apply filter_In in Hk as [_ Hk]. unfold crowded in Hk.
    apply Nat.ltb_lt in Hk. rewrite courses_of, length_map. lia.
Qed.

Lemma conflicts_sorted_witness :
  all_columns (load_timetable ascii_only (Some csv_same_course)) /\
  exists cs,
    detect_conflicts (load_timetable ascii_only (Some csv_same_course)) = Ok cs.
Proof.
  assert (H : all_columns (load_timetable ascii_only (Some csv_same_course)))
    by (repeat split).
  split; [exact H|].
  destruct (conflicts_sorted _ H) as (cs & ks & Hcs & _).
  exists cs. exact Hcs.
Defined.

(** *** The order of the lines *)

Lemma ascending_same_members {A : Type} (cmp : A -> A -> comparison)
    (l l' : list A) :
  strict_order cmp -> ascending cmp l -> ascending cmp l' ->
  (forall x, In x l <-> In x l') -> l = l'.
Proof.
  intros O. unfold ascending. intros H. revert l'.
  induction H as [|x l Hl IH Hx]; intros l' H' E.
  - destruct l' as [|y l']; auto. destruct (proj2 (E y)). now left.
  - destruct H' as [|y l' Hl' Hy].
    + destruct (proj1 (E x)). now left.
    + rewrite Forall_forall in Hx, Hy.
      assert (Exy : x = y).
      { destruct (proj1 (E x) (or_introl eq_refl)) as [->|Hin]; auto.
        destruct (proj2 (E y) (or_introl eq_refl)) as [->|Hin']; auto.
        pose proof (cmp_trans cmp O _ _ _ (Hx _ Hin') (Hy _ Hin)) as T.
        rewrite (proj2 (cmp_eq cmp O x x) eq_refl) in T. discriminate. }
      subst y. f_equal. apply IH; auto. intros z. split; intros Hz.
      * destruct (proj1 (E z) (or_intror Hz)) as [<-|]; auto.
        specialize (Hx _ Hz).
        rewrite (proj2 (cmp_eq cmp O x x) eq_refl) in Hx. discriminate.
      * destruct (proj2 (E z) (or_intror Hz)) as [<-|]; auto.
        specialize (Hy _ Hz).
        rewrite (proj2 (cmp_eq cmp O x x) eq_refl) in Hy. discriminate.
Qed.

Lemma group_perm (k : key) (rs rs' : list row) :
  Permutation rs rs' -> Permutation (group k rs) (group k rs').
Proof.
  unfold group. induction 1 as [|r l l' _ IH|r r' l|l l' l'' _ IH _ IH'];
    simpl; auto.
  - destruct (has_key k r); auto.
  - destruct (has_key k r), (has_key k r'); auto. apply perm_swap.
  - now rewrite IH.
Qed.

Lemma group_keys_perm (rs rs' : list row) :
  Permutation rs rs' -> group_keys rs = group_keys rs'.
Proof.
  intros P. apply (ascending_same_members key_compare).
  - apply key_order.
  - apply (sorted_set_ascending _ key_order).
  - apply (sorted_set_ascending _ key_order).
  - intros k. unfold group_keys.
    rewrite !(in_sorted_set _ key_order), !in_keys_of.
    split; intros [r [H1 H2]]; exists r; split; auto.
    + eapply Permutation_in; eauto.
    + eapply Permutation_in; [symmetry|]; eauto.
Qed.

(** X12. Moving the lines of the file around changes the report in one way
    only: the order of the courses inside an entry. The slots reported and
    their order stay, and each entry lists the same courses. *)
Theorem conflicts_up_to_line_order (df df' : frame) :
  all_columns df -> all_columns df' ->
  Permutation (rows df) (rows df') ->
  exists cs cs',
    detect_conflicts df = Ok cs /\ detect_conflicts df' = Ok cs' /\
    map conflict_slot cs = map conflict_slot cs' /\
    Forall2 (fun c c' => Permutation (c_Course_Code c) (c_Course_Code c'))
      cs cs'.
Proof.
  intros H H' P. eexists. eexists.
  split; [now apply detect_conflicts_closed|].
  split; [now apply detect_conflicts_closed|].
  rewrite <- (group_keys_perm _ _ P).
  rewrite (filter_ext (crowded (rows df')) (crowded (rows df))).
  2:{ intros k. unfold crowded.
      now rewrite (Permutation_length (group_perm k _ _ P)). }
  split.
  - rewrite !map_map. apply map_ext. intros k.
    now rewrite !conflict_slot_of.
  - induction (filter (crowded (rows df)) (group_keys (rows df)))
      as [|k ks IH]; simpl; constructor; auto.
    rewrite !courses_of. apply Permutation_map. now apply group_perm.
Qed.

Lemma conflicts_up_to_line_order_witness :
  let df := timetable
    [line (text "Mon") (text "9") (text "A") (text "C1");
     line (text "Mon") (text "9") (text "A") (text "C2")] in
  let df' := timetable
    [line (text "Mon") (text "9") (text "A") (text "C2");
     line (text "Mon") (text "9") (text "A") (text "C1")] in
  all_columns df /\ all_columns df' /\ Permutation (rows df) (rows df') /\
  exists cs cs', detect_conflicts df = Ok cs /\ detect_conflicts df' = Ok cs'.
Proof.
  intros df df'.
  assert (H : all_columns df) by (repeat split).
  assert (H' : all_columns df') by (repeat split).
  assert (P : Permutation (rows df) (rows df')) by apply perm_swap.
  split; [exact H|]. split; [exact H'|]. split; [exact P|].
  destruct (conflicts_up_to_line_order df df' H H' P)
    as (cs & cs' & H1 & H2 & _).
  exists cs, cs'. split; assumption.
Defined.

(** ** How a query is read *)

Lemma isspace_letter (c : N) : (65 <= c <= 122)%N -> isspace c = false.
Proof.
  intros H. unfold isspace.
  repeat (apply orb_false_intro);
    try (apply N.eqb_neq; lia);
    apply andb_false_iff;
    ((left; apply N.leb_gt; lia) || (right; apply N.leb_gt; lia)).
Qed.

Lemma isspace_tolower (c : N) : isspace (ascii_tolower c) = isspace c.
Proof.
  unfold ascii_tolower, ascii_isupper.
  destruct (N.leb_spec 65 c); [|reflexivity].
  destruct (N.leb_spec c 90); [|reflexivity]. simpl.
  rewrite !isspace_letter; auto; lia.
Qed.

Lemma lstrip_map (f : N -> N) (s : str) :
  (forall c, isspace (f c) = isspace c) ->
  lstrip (map f s) = map f (lstrip s).
Proof.
  intros H. induction s as [|c s IH]; simpl; auto.
  rewrite H. destruct (isspace c); auto.
Qed.

Lemma strip_map (f : N -> N) (s : str) :
  (forall c, isspace (f c) = isspace c) ->
  strip (map f s) = map f (strip s).
Proof.
  intros H. unfold strip, rstrip.
  rewrite (lstrip_map f s H), <- map_rev, (lstrip_map f _ H), map_rev.
  reflexivity.
Qed.

Lemma ascii_text_strip (s : str) : ascii_text s = true -> ascii_text (strip s) = true.
Proof.
  unfold ascii_text. rewrite !forallb_forall. intros H.
  apply Forall_forall. unfold strip. rewrite rstrip_rec_eq.
  apply rstrip_rec_Forall, lstrip_Forall, Forall_forall. exact H.
Qed.

Lemma ascii_tolower_facts (c : N) :
  is_ascii c = true ->
  is_ascii (ascii_tolower c) = true /\
  ascii_toupper (ascii_tolower c) = ascii_toupper c /\
  ascii_tolower (ascii_tolower c) = ascii_tolower c /\
  (ascii_isupper (ascii_tolower c) || ascii_islower (ascii_tolower c)) =
  (ascii_isupper c || ascii_islower c) /\
  (ascii_tolower c =? 931)%N = false /\ (c =? 931)%N = false.
Proof.
  unfold is_ascii, ascii_tolower, ascii_toupper, ascii_isupper, ascii_islower.
  intros H. apply N.ltb_lt in H.
  destruct (N.leb_spec 65 c); destruct (N.leb_spec c 90); simpl;
    repeat split; cases_N; simpl in *; try reflexivity; try lia.
Qed.

(** [title] reads an ASCII text without regard to the case of its letters. *)
Lemma title_from_tolower (U : pylib) (s b b' : str) (p : bool) :
  ascii_text s = true ->
  title_from U b p (map ascii_tolower s) = title_from U b' p s.
Proof.
  revert b b' p. induction s as [|c s IH]; intros b b' p H; simpl; auto.
  simpl in H. apply andb_prop in H as [Hc Hs].
  destruct (ascii_tolower_facts c Hc) as (A1 & A2 & A3 & A4 & A5 & A6).
  assert (C : is_cased U (ascii_tolower c) = is_cased U c)
    by (unfold is_cased; now rewrite A1, Hc, A4).
  rewrite C, (IH (ascii_tolower c :: b) (c :: b')) by exact Hs. f_equal.
  unfold lower_at, to_title_full, to_lower_full.
  rewrite A1, Hc, A2, A3, A5, A6. reflexivity.
Qed.

Lemma title_tolower (U : pylib) (s : str) :
  ascii_text s = true -> title U (map ascii_tolower s) = title U s.
Proof. intros H. now apply title_from_tolower. Qed.

(** X13. The day of a query is read without the white space around it and, for
    ASCII text, without regard to the case of its letters; the time is read
    without the white space around it. Two queries that agree up to that get
    the same answer, raised exceptions included. *)
Theorem query_normalised (U : pylib) (df : frame) (day day' time time' : str) :
  ascii_text day = true -> ascii_text day' = true ->
  map ascii_tolower (strip day) = map ascii_tolower (strip day') ->
  strip time = strip time' ->
  get_free_halls U df day time = get_free_halls U df day' time'.
Proof.
  intros Ha Ha' Hd Ht. unfold get_free_halls. rewrite Ht.
  rewrite <- (title_tolower U (strip day)) by now apply ascii_text_strip.
  rewrite <- (title_tolower U (strip day')) by now apply ascii_text_strip.
  rewrite Hd. reflexivity.
Qed.

Lemma query_normalised_witness :
  ascii_text (lit "  MONDAY ") = true /\
  get_free_halls ascii_only (load_timetable ascii_only (Some csv_lab))
    (lit "  MONDAY ") (lit " 11: ") =
  get_free_halls ascii_only (load_timetable ascii_only (Some csv_lab))
    (lit "monday") (lit "11:").
Proof.
  split; [reflexivity|].
  exact (query_normalised ascii_only
           (load_timetable ascii_only (Some csv_lab))
           (lit "  MONDAY ") (lit "monday") (lit " 11: ") (lit "11:")
           eq_refl eq_refl eq_refl eq_refl).
Defined.

Lemma icontains_nil (U : pylib) (s : str) : icontains U [] s = true.
Proof. destruct s; reflexivity. Qed.

(** X14. With an empty time (the form's default, or white space only) every
    line of the day counts: the occupied halls are the halls of the lines of
    that day that have a time. *)
Theorem empty_time_matches_all (U : pylib) (df : frame) (day time : str) :
  has_Day df = true -> has_Time df = true -> has_Lecture_Hall df = true ->
  strip time = [] ->
  exists free occ,
    get_free_halls U df day time = Ok (free, occ) /\
    forall h,
      In h occ <->
      exists r,
        In r (rows df) /\ Lecture_Hall r = Str h /\
        Day r = Str (title U (strip day)) /\ Time r <> NA.
Proof.
  intros HD HT HH E.
  destruct (occupied_literal_query U df day time HD HT HH)
    as (free & occ & Hq & Hocc); [now rewrite E|].
  exists free, occ. split; auto. intros h. rewrite Hocc. split.
  - intros (r & t & H1 & H2 & H3 & H4 & _). exists r. repeat split; auto.
    rewrite H4. discriminate.
  - intros (r & H1 & H2 & H3 & H4). destruct (Time r) as [|t] eqn:T;
      [now destruct H4|].
    exists r, t. repeat split; auto. rewrite E. apply icontains_nil.
Qed.

Lemma empty_time_matches_all_witness :
  strip (lit "  ") = [] /\
  exists free occ,
    get_free_halls ascii_only (load_timetable ascii_only (Some csv_lab))
      (lit "monday") (lit "  ") = Ok (free, occ).
Proof.
  split; [reflexivity|].
  destruct (empty_time_matches_all ascii_only
              (load_timetable ascii_only (Some csv_lab))
              (lit "monday") (lit "  ") eq_refl eq_refl eq_refl eq_refl)
    as (free & occ & H & _).
  exists free, occ. exact H.
Defined.

(** *** Parentheses in the time *)





(** ** The shape of a cleaned hall name *)

Lemma spaced_only_spaces (t : str) (b : bool) (c : N) :
  spaced b t = true -> In c t -> isspace c = true -> c = 32%N.
Proof.
  revert b. induction t as [|x t IH]; intros b H Hin Hc; [destruct Hin|].
  destruct Hin as [->|Hin].
  - simpl in H. rewrite Hc in H. apply andb_prop in H as [H _].
    apply andb_prop in H as [H _]. now apply N.eqb_eq.
  - simpl in H. destruct (isspace x).
    + apply andb_prop in H as [_ H]. eapply IH; eauto.
    + eapply IH; eauto.
Qed.

Lemma spaced_no_double (t : str) (b : bool) :
  spaced b t = true -> contains (lit "  ") t = false.
Proof.
  change (lit "  ") with [32%N; 32%N].
  revert b. induction t as [|x t IH]; intros b H; [reflexivity|].
  cbn [contains]. apply orb_false_intro.
  - destruct (is_prefix [32%N; 32%N] (x :: t)) eqn:P; auto.
    apply is_prefix_app in P as [t' P]. injection P as -> ->.
    simpl in H. rewrite !andb_false_r in H. discriminate H.
  - simpl in H. destruct (isspace x).
    + apply andb_prop in H as [_ H]. eapply IH; eauto.
    + eapply IH; eauto.
Qed.

Lemma okctx_after_char (a : N) (t : str) (p : option N) :
  okctx (after_char a) p t = true -> contains [a; 32%N] t = false.
Proof.
  revert p. induction t as [|x t IH]; intros p H; [reflexivity|].
  cbn [contains]. cbn [okctx] in H. apply andb_prop in H as [_ H].
  apply orb_false_intro; [|eapply IH; eauto].
  destruct (is_prefix [a; 32%N] (x :: t)) eqn:P; auto.
  apply is_prefix_app in P as [t' P]. injection P as -> ->.
  cbn [okctx] in H. rewrite after_char_eq, is_char_same in H.
  discriminate H.
Qed.

Lemma okctx_before_char (b : N) (t : str) (p : option N) :
  okctx (before_char b) p t = true -> contains [32%N; b] t = false.
Proof.
  revert p. induction t as [|x t IH]; intros p H; [reflexivity|].
  cbn [contains]. cbn [okctx] in H. apply andb_prop in H as [H1 H].
  apply orb_false_intro; [|eapply IH; eauto].
  destruct (is_prefix [32%N; b] (x :: t)) eqn:P; auto.
  apply is_prefix_app in P as [t' P]. injection P as -> ->.
  cbn [hd_error] in H1. rewrite before_char_eq, is_char_same in H1.
  discriminate H1.
Qed.

Lemma okctx_between (a b : N) (t : str) (p : option N) :
  okctx (between a b) p t = true -> contains [a; 32%N; b] t = false.
Proof.
  revert p. induction t as [|x t IH]; intros p H; [reflexivity|].
  cbn [contains]. cbn [okctx] in H. apply andb_prop in H as [_ H].
  apply orb_false_intro; [|eapply IH; eauto].
  destruct (is_prefix [a; 32%N; b] (x :: t)) eqn:P; auto.
  apply is_prefix_app in P as [t' P]. injection P as -> ->.
  cbn [okctx hd_error] in H. rewrite between_eq, !is_char_same in H.
  discriminate H.
Qed.

Lemma clean_hall_name_shape (U : pylib) (s t : str) :
  clean_hall_name U (Str s) = Str t ->
  spaced false t = true /\
  okctx (after_char 40) None t = true /\
  okctx (before_char 41) None t = true /\
  okctx (between 65 66) None t = true /\
  okctx (between 69 66) None t = true /\
  strip t = t.
Proof.
  rewrite clean_hall_name_text. intros H. injection H as <-.
  pose proof (sub_ws_spaced (upper U s) false) as HS.
  fold (sub_ws (upper U s)) in HS.
  set (w := sub_ws (upper U s)) in *.
  rewrite strip_idem. unfold strip. rewrite rstrip_rec_eq.
  split; [|split; [|split; [|split; [|split]]]]; auto.
  - apply rstrip_rec_spaced, (lstrip_spaced _ false).
    now repeat apply del_spaced.
  - apply rstrip_rec_okctx, (lstrip_okctx _ _ None).
    do 3 (apply del_okctx_keep with (b := false);
          [now repeat apply del_spaced|]).
    now apply del_okctx_self with (b := false).
  - apply rstrip_rec_okctx, (lstrip_okctx _ _ None).
    do 2 (apply del_okctx_keep with (b := false);
          [now repeat apply del_spaced|]).
    apply del_okctx_self with (b := false). now repeat apply del_spaced.
  - apply rstrip_rec_okctx, (lstrip_okctx _ _ None).
    apply del_okctx_keep with (b := false); [now repeat apply del_spaced|].
    apply del_okctx_self with (b := false). now repeat apply del_spaced.
  - apply rstrip_rec_okctx, (lstrip_okctx _ _ None).
    apply del_okctx_self with (b := false). now repeat apply del_spaced.
Qed.

(** X16. Whatever the name, the cleaned hall name has no white space at its
    ends, no white space other than single spaces, and none of the texts
    "( ", " )", "A B", "E B" in it. *)
Theorem cleaned_hall_name_shape (U : pylib) (s t : str) :
  clean_hall_name U (Str s) = Str t ->
  strip t = t /\
  (forall c, In c t -> isspace c = true -> c = 32%N) /\
  contains (lit "  ") t = false /\
  contains (lit "( ") t = false /\
  contains (lit " )") t = false /\
  contains (lit "A B") t = false /\
  contains (lit "E B") t = false.
Proof.
  intros H. apply clean_hall_name_shape in H as (HS & H1 & H2 & H3 & H4 & HT).
  split; [exact HT|]. split; [|split; [|split; [|split; [|split]]]].
  - intros c. now apply spaced_only_spaces with (b := false).
  - now apply spaced_no_double with (b := false).
  - now apply okctx_after_char with (p := None).
  - now apply okctx_before_char with (p := None).
  - now apply okctx_between with (p := None).
  - now apply okctx_between with (p := None).
Qed.

Lemma cleaned_hall_name_shape_witness :
  clean_hall_name ascii_only (Str (lit "  lt ( a b )  e  b (x) ")) =
    Str (lit "LT (AB) EB (X)") /\
  contains (lit "A B") (lit "LT (AB) EB (X)") = false.
Proof.
  split; [reflexivity|].
  pose proof (cleaned_hall_name_shape ascii_only
                (lit "  lt ( a b )  e  b (x) ") (lit "LT (AB) EB (X)")
                eq_refl) as H.
  exact (proj1 (proj2 (proj2 (proj2 (proj2 (proj2 H)))))).
Defined.

(** ** What is in a loaded timetable *)

Lemma clean_hall_name_NA (U : pylib) (c : cell) :
  clean_hall_name U c = NA <-> c = NA.
Proof. destruct c; simpl; split; congruence. Qed.

(** X18. Loading keeps the lines, their order and their course codes; a
    hall is missing exactly where the file has none, and a time that is there
    has no white space at its ends. Where [astype(str)] writes a missing cell
    as text (pandas before 3.0), no day and no time is missing in the loaded
    lines, so the lines that belong to no group of conflict detection are
    exactly the lines without a hall. Where it keeps a missing cell missing
    (pandas 3), a day or a time is missing exactly where the file has none,
    and a line belongs to no group as soon as its day, its time or its hall
    is missing. *)
Theorem loaded_lines (U : pylib) (csv : frame) :
  has_Day csv = true -> has_Time csv = true -> has_Lecture_Hall csv = true ->
  let df := load_timetable U (Some csv) in
  map Course_Code (rows df) = map Course_Code (rows csv) /\
  map (fun r => isna (Lecture_Hall r)) (rows df) =
    map (fun r => isna (Lecture_Hall r)) (rows csv) /\
  (forall r t, In r (rows df) -> Time r = Str t -> strip t = t) /\
  (nan_as_text U = true ->
   forall r, In r (rows df) ->
     (exists d, Day r = Str d) /\
     (exists t, Time r = Str t) /\
     (row_key r = None <-> Lecture_Hall r = NA)) /\
  (nan_as_text U = false ->
   map (fun r => isna (Day r)) (rows df) =
     map (fun r => isna (Day r)) (rows csv) /\
   map (fun r => isna (Time r)) (rows df) =
     map (fun r => isna (Time r)) (rows csv) /\
   forall r, In r (rows df) ->
     (row_key r = None <->
      Day r = NA \/ Time r = NA \/ Lecture_Hall r = NA)).
Proof.
  intros HD HT HH df. cbn [df load_timetable rows]. rewrite !map_map.
  split; [reflexivity|]. split; [|split; [|split]].
  - apply map_ext. intros r. cbn [clean_row Lecture_Hall]. rewrite HH.
    now destruct (Lecture_Hall r).
  - intros r' t Hr. apply in_map_iff in Hr as [r [<- _]].
    cbn [clean_row Time]. rewrite HT. unfold astype_str.
    destruct (Time r); [destruct (nan_as_text U)|]; cbn [str_method];
      intros E; try discriminate E; injection E as <-; apply strip_idem.
  - intros V r' Hr. apply in_map_iff in Hr as [r [<- _]].
    unfold row_key. cbn [clean_row Day Time Lecture_Hall].
    rewrite HD, HT, HH. unfold astype_str. rewrite V.
    destruct (Day r), (Time r); cbn [str_method];
      (split; [eauto|]); (split; [eauto|]);
      destruct (clean_hall_name U (Lecture_Hall r)); split; congruence.
  - intros V. split; [|split].
    + apply map_ext. intros r. cbn [clean_row Day]. rewrite HD.
      unfold astype_str. rewrite V. now destruct (Day r).
    + apply map_ext. intros r. cbn [clean_row Time]. rewrite HT.
      unfold astype_str. rewrite V. now destruct (Time r).
    + intros r' Hr. unfold row_key.
      destruct (Day r'), (Time r'), (Lecture_Hall r'); split;
        try congruence; try tauto;
        intros [K|[K|K]]; discriminate K.
Qed.

Lemma loaded_lines_witness :
  has_Day csv_missing_cells = true /\
  nan_as_text pandas3 = false /\
  map (fun r => isna (Day r))
    (rows (load_timetable pandas3 (Some csv_missing_cells))) = [true; false].
Proof.
  split; [reflexivity|]. split; [reflexivity|].
  exact (proj1 (proj2 (proj2 (proj2 (proj2
           (loaded_lines pandas3 csv_missing_cells
              eq_refl eq_refl eq_refl)))) eq_refl)).
Defined.

(** X19. The drop-down lists of the index page hold the days, and the times, of
    the lines, each once, in ascending order; without the column the list is
    empty. *)
Theorem options_sorted (U : pylib) (df : frame) :
  ascending str_compare (day_options df) /\
  ascending str_compare (time_options df) /\
  (forall d, In d (day_options df) <->
             has_Day df = true /\ exists r, In r (rows df) /\ Day r = Str d) /\
  (forall t, In t (time_options df) <->
             has_Time df = true /\ exists r, In r (rows df) /\ Time r = Str t).
Proof.
  unfold day_options, time_options.
  split; [|split; [|split]].
  - destruct (has_Day df); [apply (sorted_set_ascending _ str_order)|constructor].
  - destruct (has_Time df); [apply (sorted_set_ascending _ str_order)|constructor].
  - intros d. destruct (has_Day df).
    + rewrite (in_sorted_set _ str_order), in_unique, in_dropna, in_map_iff.
      split.
      * intros [r [H1 H2]]. eauto.
      * intros [_ [r [H1 H2]]]. eauto.
    + simpl. split; [tauto | intros [H _]; discriminate H].
  - intros t. destruct (has_Time df).
    + rewrite (in_sorted_set _ str_order), in_unique, in_dropna, in_map_iff.
      split.
      * intros [r [H1 H2]]. eauto.
      * intros [_ [r [H1 H2]]]. eauto.
    + simpl. split; [tauto | intros [H _]; discriminate H].
Qed.

(** ** Spellings of a hall *)

Lemma upper_ascii (U : pylib) (s : str) :
  ascii_text s = true -> upper U s = map ascii_toupper s.
Proof.
  unfold upper. induction s as [|c s IH]; intros H; simpl; auto.
  simpl in H. apply andb_prop in H as [Hc Hs].
  unfold to_upper_full at 1. rewrite Hc, IH by exact Hs. reflexivity.
Qed.

Lemma isspace_toupper (c : N) : isspace (ascii_toupper c) = isspace c.
Proof.
  unfold ascii_toupper, ascii_islower.
  destruct (N.leb_spec 97 c); [|reflexivity].
  destruct (N.leb_spec c 122); [|reflexivity]. simpl.
  rewrite !isspace_letter; auto; lia.
Qed.

Lemma sub_ws_from_map (f : N -> N) (s : str) (b : bool) :
  (forall c, isspace (f c) = isspace c) -> f 32%N = 32%N ->
  sub_ws_from b (map f s) = map f (sub_ws_from b s).
Proof.
  intros H H32. revert b. induction s as [|c s IH]; intros b; simpl; auto.
  rewrite H. destruct (isspace c); [destruct b|]; simpl; rewrite ?H32, IH; auto.
Qed.

Lemma ascii_text_sub_ws (s : str) (b : bool) :
  ascii_text s = true -> ascii_text (sub_ws_from b s) = true.
Proof.
  unfold ascii_text. rewrite !forallb_forall. intros H.
  apply Forall_forall, sub_ws_Forall; [reflexivity|].
  now apply Forall_forall.
Qed.

Lemma toupper_tolower (s : str) :
  ascii_text s = true ->
  map ascii_toupper (map ascii_tolower s) = map ascii_toupper s.
Proof.
  intros H. rewrite map_map. apply map_ext_in. intros c Hc.
  unfold ascii_text in H. rewrite forallb_forall in H.
  now destruct (ascii_tolower_facts c (H c Hc)) as (_ & A2 & _).
Qed.

(** X17. Two ASCII spellings of a hall that differ only in the case of their
    letters and in the white space used where there is some (tabs, several
    spaces) are cleaned to the same name. *)
Theorem hall_spellings_agree (U : pylib) (s s' : str) :
  ascii_text s = true -> ascii_text s' = true ->
  map ascii_tolower (sub_ws s) = map ascii_tolower (sub_ws s') ->
  clean_hall_name U (Str s) = clean_hall_name U (Str s').
Proof.
  intros Ha Ha' E.
  assert (K : forall x, ascii_text x = true ->
              sub_ws (upper U x) =
              map ascii_toupper (map ascii_tolower (sub_ws x))).
  { intros x Hx. rewrite upper_ascii by exact Hx. unfold sub_ws.
    rewrite sub_ws_from_map by (auto using isspace_toupper).
    symmetry. apply toupper_tolower. now apply ascii_text_sub_ws. }
  rewrite !clean_hall_name_text, (K s Ha), (K s' Ha'), E. reflexivity.
Qed.

Lemma hall_spellings_agree_witness :
  ascii_text (lit "lt   1") = true /\
  clean_hall_name ascii_only (Str (lit "lt   1")) =
  clean_hall_name ascii_only (Str (lit "LT 1")).
Proof.
  split; [reflexivity|].
  exact (hall_spellings_agree ascii_only (lit "lt   1") (lit "LT 1")
           eq_refl eq_refl eq_refl).
Defined.

(** ** Free and occupied for an ordinary time *)

(** X20. For a time without any special character of [re], on a dataset with
    the Day, Time and Lecture Hall columns, the query returns; a hall is
    occupied exactly when one of its lines has the day of the query
    (stripped, in title case) and a time that contains the stripped query,
    case ignored, and free exactly when it is a hall of the dataset with no
    such line. *)
Theorem availability_of_literal_query (U : pylib) (df : frame)
    (day time : str) :
  has_Day df = true -> has_Time df = true -> has_Lecture_Hall df = true ->
  literal (strip time) = true ->
  let hit h r :=
    Lecture_Hall r = Str h /\ Day r = Str (title U (strip day)) /\
    exists t, Time r = Str t /\ icontains U (strip time) t = true in
  exists free occ,
    get_free_halls U df day time = Ok (free, occ) /\
    (forall h, In h occ <-> exists r, In r (rows df) /\ hit h r) /\
    (forall h, In h free <->
               (exists r, In r (rows df) /\ Lecture_Hall r = Str h) /\
               ~ exists r, In r (rows df) /\ hit h r).
Proof.
  intros HD HT HH HL hit.
  destruct (occupied_literal_query U df day time HD HT HH HL)
    as (free & occ & Hq & Hocc).
  pose proof (free_occupied_members U df day time free occ Hq)
    as (Hdis & Hcov & _).
  assert (Ho : forall h, In h occ <-> exists r, In r (rows df) /\ hit h r).
  { intros h. rewrite Hocc. unfold hit. split.
    - intros (r & t & H1 & H2 & H3 & H4 & H5). exists r. eauto 7.
    - intros (r & H1 & H2 & H3 & t & H4 & H5). exists r, t. auto. }
  exists free, occ. split; [exact Hq|]. split; [exact Ho|].
  intros h. rewrite <- Ho, <- Hcov. split.
  - intros H. split; auto. intros K. exact (Hdis h H K).
  - intros [[H|H] K]; tauto.
Qed.

Lemma availability_of_literal_query_witness :
  literal (strip (lit "11:00")) = true /\
  exists free occ,
    get_free_halls ascii_only (load_timetable ascii_only (Some csv_lab))
      (lit "monday") (lit "11:00") = Ok (free, occ).
Proof.
  split; [reflexivity|].
  destruct (availability_of_literal_query ascii_only
              (load_timetable ascii_only (Some csv_lab))
              (lit "monday") (lit "11:00")
              eq_refl eq_refl eq_refl eq_refl) as (free & occ & H & _).
  exists free, occ. exact H.
Defined.

(** ** Uploads *)

(** X3. An upload that is refused (no file in the request, an empty name, or
    a name that [allowed_file] rejects) leaves the timetable and the chart on
    disk as they were and flashes exactly one message. *)
Theorem refused_upload_changes_nothing (U : pylib) (files : option file_storage)
    (st : site) :
  match files with
  | None => True
  | Some file => allowed_file U (fs_filename file) = false
  end ->
  snd (upload_file U files st) = st /\
  exists message, fst (upload_file U files st) = Ok [message].
Proof.
  unfold upload_file. destruct files as [file|]; [|simpl; eauto].
  intros H. destruct (fs_filename file) as [|c name] eqn:E; [simpl; eauto|].
  rewrite H, andb_false_r. simpl. eauto.
Qed.

Lemma refused_upload_changes_nothing_witness :
  allowed_file ascii_only (lit "timetable.xlsx") = false /\
  snd (upload_file ascii_only (an_upload "timetable.xlsx" csv_lab) no_files)
  = no_files.
Proof.
  split; [reflexivity|].
  exact (proj1 (refused_upload_changes_nothing ascii_only
                  (an_upload "timetable.xlsx" csv_lab) no_files eq_refl)).
Defined.

Lemma allowed_file_truthy (U : pylib) (file : file_storage) :
  allowed_file U (fs_filename file) = true ->
  exists c name, fs_filename file = c :: name /\ file_truthy file = true.
Proof.
  intros H. unfold file_truthy. destruct (fs_filename file) as [|c name].
  - discriminate H.
  - eauto.
Qed.

(** What an accepted upload does, by what [load_timetable] and
    [generate_chart] return on the new file. *)
Lemma upload_accepted (U : pylib) (file : file_storage) (st : site) :
  allowed_file U (fs_filename file) = true ->
  upload_file U (Some file) st =
  let saved := {| timetable_csv := Some (fs_content file);
                  hall_usage_png := hall_usage_png st |} in
  match load_timetable_from U (Some (fs_content file)) with
  | Raise e => (Raise e, saved)
  | Ok df =>
      match generate_chart U df with
      | Raise e => (Raise e, saved)
      | Ok None => (Ok [msg_uploaded; msg_chart_updated], saved)
      | Ok (Some hall_counts) =>
          (Ok [msg_uploaded; msg_chart_updated],
           {| timetable_csv := Some (fs_content file);
              hall_usage_png := Some hall_counts |})
      end
  end.
Proof.
  intros H. destruct (allowed_file_truthy U file H) as (c & name & E & T).
  unfold upload_file. rewrite E. rewrite <- E, T, H. reflexivity.
Qed.


Lemma generate_chart_cases (U : pylib) (csv : frame) :
  let df := load_timetable U (Some csv) in
  match rows csv with
  | [] => generate_chart U df = Ok None
  | _ :: _ =>
      if has_Lecture_Hall csv
      then match value_counts U (map Lecture_Hall (rows df)) with
           | [] => generate_chart U df = Raise PlotError
           | x :: l => generate_chart U df = Ok (Some (x :: l))
           end
      else generate_chart U df = Raise (KeyError (lit "Lecture Hall"))
  end.
Proof.
  intros df. unfold generate_chart, empty. cbn [df load_timetable rows].
  destruct (rows csv) as [|r rs]; [reflexivity|]. cbn [map has_Lecture_Hall].
  destruct (has_Lecture_Hall csv); [|reflexivity]. cbn [need bind].
  destruct (value_counts U _); reflexivity.
Qed.



(** X5. An accepted file that [pd.read_csv] reads and that has a header and
    no line is saved and the handler says that the chart was updated, but
    the chart on disk is the old one, while [chart_data] already answers with
    empty lists. *)
Theorem empty_upload_keeps_old_chart (U : pylib) (file : file_storage)
    (csv : frame) (st : site) :
  allowed_file U (fs_filename file) = true ->
  fs_content file = Readable csv ->
  rows csv = [] ->
  let out := upload_file U (Some file) st in
  fst out = Ok [msg_uploaded; msg_chart_updated] /\
  hall_usage_png (snd out) = hall_usage_png st /\
  chart_data_of U (snd out) = Ok ([], []).
Proof.
  intros H F R out. unfold out. rewrite (upload_accepted U file st H), F.
  cbn [load_timetable_from read_csv bind].
  pose proof (generate_chart_cases U csv) as G. cbv zeta in G.
  rewrite R in G. rewrite G. cbn [fst snd hall_usage_png].
  split; [reflexivity|]. split; [reflexivity|].
  unfold chart_data_of, chart_data, empty.
  cbn [timetable_csv read_csv bind load_timetable rows]. rewrite R.
  reflexivity.
Qed.

Lemma empty_upload_keeps_old_chart_witness :
  allowed_file ascii_only (lit "empty.csv") = true /\
  rows csv_header_only = [] /\
  hall_usage_png
    (snd (upload_file ascii_only (an_upload "empty.csv" csv_header_only)
            {| timetable_csv := Some (Readable csv_two_halls);
               hall_usage_png := Some [(lit "B", 1); (lit "A", 1)] |})) =
  Some [(lit "B", 1); (lit "A", 1)].
Proof.
  split; [reflexivity|]. split; [reflexivity|].
  exact (proj1 (proj2 (empty_upload_keeps_old_chart ascii_only
           {| fs_filename := lit "empty.csv";
              fs_content := Readable csv_header_only |}
           csv_header_only
           {| timetable_csv := Some (Readable csv_two_halls);
              hall_usage_png := Some [(lit "B", 1); (lit "A", 1)] |}
           eq_refl eq_refl eq_refl))).
Defined.


